(** * gogogo: a user-management service, twice

    A shallow embedding of the two Python programs of the repository:

    - [FlatFile]: [src/api_1.py], the Flask service that keeps its users in a
      global list and rewrites a newline-delimited text file after each add;
    - [Userator]: [src/userator/api_1.py], the FastAPI service on an SQLite
      table, with request validation by pydantic.

    Python [int] is [Z]; Python [str] is [string], one [ascii] per character
    (code points 0..255); [None] is [None].  Code that raises runs in a
    state-and-exception monad over the connection.  What the programs take
    from their libraries is modelled as far as they use it: the built-ins
    [str.strip], [str.split], [int], [str] and text-mode reading in [Py];
    three SQL statements, transactions and [AUTOINCREMENT] of [sqlite3];
    field validation of pydantic, with the email syntax left to a parameter;
    the way FastAPI resolves a generator dependency, validates parameters
    and turns exceptions into responses.  Logging ([print]) and failures of
    the file system are outside the contract and are not part of the
    state. *)

From Stdlib Require Import ZArith List String Ascii Bool Lia.
From Stdlib Require Import Sorted Permutation.
From Stdlib Require Import DecimalString DecimalPos DecimalZ.
Import ListNotations.

Local Open Scope Z_scope.
Local Open Scope list_scope.
Local Open Scope string_scope.

(** ** Python built-ins used by the two programs *)

Module Py.

(** [str.isspace] on one character, for the code points below 256:
    TAB, LF, VT, FF, CR, FS, GS, RS, US, SPACE, NEL and NBSP. *)
Definition isspace (c : ascii) : bool :=
  let n := nat_of_ascii c in
  ((9 <=? n) && (n <=? 13) || (28 <=? n) && (n <=? 32)
   || (n =? 133) || (n =? 160))%nat.

Fixpoint lstrip (s : string) : string :=
  match s with
  | EmptyString => EmptyString
  | String c s' => if isspace c then lstrip s' else s
  end.

Fixpoint rstrip (s : string) : string :=
  match s with
  | EmptyString => EmptyString
  | String c s' =>
      match rstrip s' with
      | EmptyString => if isspace c then EmptyString else String c EmptyString
      | r => String c r
      end
  end.

(** [s.strip()] *)
Definition strip (s : string) : string := rstrip (lstrip s).

(** [s.split(sep)] for a one-character separator: always at least one part. *)
Fixpoint split (sep : ascii) (s : string) : list string :=
  match s with
  | EmptyString => [EmptyString]
  | String c s' =>
      if Ascii.eqb c sep then EmptyString :: split sep s'
      else match split sep s' with
           | p :: ps => String c p :: ps
           | [] => [String c EmptyString]
           end
  end.

Definition LF : ascii := "010"%char.
Definition CR : ascii := "013"%char.

(** Reading a text file opened with the default [newline=None]: each of
    CR LF, CR and LF ends a line and is handed over as LF. *)
Fixpoint universal_newlines (s : string) : string :=
  match s with
  | EmptyString => EmptyString
  | String c s' =>
      if Ascii.eqb c CR then
        match s' with
        | String c' _ =>
            if Ascii.eqb c' LF then universal_newlines s'
            else String LF (universal_newlines s')
        | EmptyString => String LF EmptyString
        end
      else String c (universal_newlines s')
  end.

(** [for line in f]: the lines of the text, each with its ending LF; the
    last one has none when the text does not end in LF. *)
Fixpoint iter_lines (s : string) : list string :=
  match s with
  | EmptyString => []
  | String c s' =>
      if Ascii.eqb c LF then String c EmptyString :: iter_lines s'
      else match iter_lines s' with
           | l :: ls => String c l :: ls
           | [] => [String c EmptyString]
           end
  end.

(** [str(n)] for an [int]. *)
Definition str_of_int (n : Z) : string := NilZero.string_of_int (Z.to_int n).

Definition digit_of (c : ascii) : option Z :=
  let n := nat_of_ascii c in
  if ((48 <=? n) && (n <=? 57))%nat then Some (Z.of_nat n - 48) else None.

(** The digits of an integer literal as [int] reads them: decimal digits,
    single underscores allowed between two digits only.  [after_digit] says
    whether the previous character was a digit. *)
Fixpoint int_digits (acc : Z) (after_digit : bool) (s : string) : option Z :=
  match s with
  | EmptyString => if after_digit then Some acc else None
  | String c s' =>
      if Ascii.eqb c "_"%char then
        if after_digit then int_digits acc false s' else None
      else match digit_of c with
           | Some d => int_digits (10 * acc + d) true s'
           | None => None
           end
  end.

(** An optional sign, then the digits. *)
Definition int_literal (s : string) : option Z :=
  match s with
  | String c s' =>
      if Ascii.eqb c "-"%char then option_map Z.opp (int_digits 0 false s')
      else if Ascii.eqb c "+"%char then int_digits 0 false s'
      else int_digits 0 false (String c s')
  | EmptyString => None
  end.

(** [int(s)] for a [str]: [None] is [ValueError].  Surrounding whitespace
    is dropped first.  (The cap that recent interpreters put on the number
    of digits is not modelled.) *)
Definition int (s : string) : option Z := int_literal (strip s).

(** [needle in hay] for strings. *)
Fixpoint contains (needle hay : string) : bool :=
  if String.prefix needle hay then true
  else match hay with
       | EmptyString => false
       | String _ hay' => contains needle hay'
       end.

(** [c in s] for one character. *)
Fixpoint occurs (c : ascii) (s : string) : bool :=
  match s with
  | EmptyString => false
  | String c' s' => Ascii.eqb c' c || occurs c s'
  end.

(** Truthiness of an [Optional[str]]: [None] and [""] are false. *)
Definition truthy (s : option string) : bool :=
  match s with
  | Some (String _ _) => true
  | _ => false
  end.

(** *** Auxiliary definitions for the proofs *)

(** The value of the digits [d] read after [acc]. *)
Fixpoint uint_value (d : Decimal.uint) (acc : Z) : Z :=
  match d with
  | Decimal.Nil => acc
  | Decimal.D0 d => uint_value d (10 * acc)
  | Decimal.D1 d => uint_value d (10 * acc + 1)
  | Decimal.D2 d => uint_value d (10 * acc + 2)
  | Decimal.D3 d => uint_value d (10 * acc + 3)
  | Decimal.D4 d => uint_value d (10 * acc + 4)
  | Decimal.D5 d => uint_value d (10 * acc + 5)
  | Decimal.D6 d => uint_value d (10 * acc + 6)
  | Decimal.D7 d => uint_value d (10 * acc + 7)
  | Decimal.D8 d => uint_value d (10 * acc + 8)
  | Decimal.D9 d => uint_value d (10 * acc + 9)
  end.

(** A character of a printed number: a digit or the sign. *)
Definition numeric (c : ascii) : bool :=
  match digit_of c with
  | Some _ => true
  | None => Ascii.eqb c "-"
  end.

Fixpoint all_chars (p : ascii -> bool) (s : string) : bool :=
  match s with
  | EmptyString => true
  | String c s' => p c && all_chars p s'
  end.

(** The number of times [c] occurs in [s]. *)
Fixpoint count (c : ascii) (s : string) : nat :=
  match s with
  | EmptyString => O
  | String c' s' => (if Ascii.eqb c' c then 1 else 0) + count c s'
  end.

End Py.

(** ** The flat-file variant: [src/api_1.py] *)

Module FlatFile.

(** [class User] *)
Record User := { id : Z; name : string; email : string }.

(** [User.__str__]: [f"{self.id},{self.name},{self.email}"] *)
Definition User_str (u : User) : string :=
  Py.str_of_int (id u) ++ "," ++ name u ++ "," ++ email u.

(** The module's globals and the file [users_python.txt] ([None]: there is
    no such file). *)
Record State := { users : list User; file : option string }.

(** The body of the loop of [load_users_from_file] on one line. *)
Definition load_line (users : list User) (line : string) : list User :=
  let line := Py.strip line in
  if Py.truthy (Some line) then
    let parts := Py.split ","%char line in
    if (List.length parts =? 3)%nat then
      match Py.int (nth 0 parts "") with
      | Some user_id =>
          (users ++ [ {| id := user_id; name := nth 1 parts "";
                         email := nth 2 parts "" |} ])%list
      | None => users
      end
    else users
  else users.

Definition load_users_from_file (st : State) : State :=
  match file st with
  | Some text =>
      {| users := fold_left load_line
                    (Py.iter_lines (Py.universal_newlines text)) [];
         file := file st |}
  | None => {| users := []; file := file st |}
  end.

(** What [save_users_to_file] writes (on a system whose line separator is
    LF, so that text mode writes the characters as they are). *)
Definition file_text (us : list User) : string :=
  fold_left (fun text u => text ++ User_str u ++ String Py.LF "") us "".

Definition save_users_to_file (st : State) : State :=
  {| users := users st; file := Some (file_text (users st)) |}.

(** A Flask response: body text and status code. *)
Record Response := { text : string; status : Z }.

Definition handle_get_users (st : State) : Response :=
  {| text := fold_left
               (fun response_text u =>
                  response_text ++ "ID: " ++ Py.str_of_int (id u)
                  ++ ", Name: " ++ name u ++ ", Email: " ++ email u
                  ++ String Py.LF "")
               (users st) ("Users:" ++ String Py.LF "");
     status := 200 |}.

(** [request.args.get] gives [None] for an absent parameter. *)
Definition handle_add_user (name email : option string) (st : State)
  : State * Response :=
  match name, email with
  | Some name', Some email' =>
      if negb (Py.truthy name) || negb (Py.truthy email) then
        (st, {| text := "Name and Email are required"; status := 400 |})
      else
        let new_id := Z.of_nat (List.length (users st)) + 1 in
        let new_user := {| id := new_id; name := name'; email := email' |} in
        let st' := {| users := (users st ++ [new_user])%list;
                     file := file st |} in
        (save_users_to_file st',
         {| text := "User added: ID " ++ Py.str_of_int (id new_user)
                    ++ ", Name " ++ FlatFile.name new_user
                    ++ ", Email " ++ FlatFile.email new_user
                    ++ String Py.LF "";
            status := 200 |})
  | _, _ => (st, {| text := "Name and Email are required"; status := 400 |})
  end.

(** *** Vocabulary for the properties of the file format *)

(** The parts of a line as the loader splits it. *)
Definition line_parts (line : string) : list string :=
  Py.split ","%char (Py.strip line).

(** A malformed line: not exactly three comma-separated parts, or a first
    part that is not an integer. *)
Definition malformed (line : string) : bool :=
  negb (List.length (line_parts line) =? 3)%nat
  || match Py.int (nth 0 (line_parts line) "") with
     | Some _ => false
     | None => true
     end.

(** The user a well-formed line stands for. *)
Definition user_of_line (line : string) : User :=
  {| id := match Py.int (nth 0 (line_parts line) "") with
           | Some user_id => user_id
           | None => 0
           end;
     name := nth 1 (line_parts line) "";
     email := nth 2 (line_parts line) "" |}.

(** Ids that are 1, 2, ..., N in the order of the list. *)
Definition dense_ids (us : list User) : Prop :=
  map id us = map Z.of_nat (seq 1 (List.length us)).

(** A field without comma and without newline character. *)
Definition plain (field : string) : bool :=
  negb (Py.occurs ","%char field) && negb (Py.occurs Py.LF field).

(** A user whose line reads back as written: no comma and no line break (LF
    or CR) in the name and the email, and no white space at the end of the
    email. *)
Definition storable (u : User) : bool :=
  plain (name u) && negb (Py.occurs Py.CR (name u))
  && plain (email u) && negb (Py.occurs Py.CR (email u))
  && String.eqb (Py.rstrip (email u)) (email u).

(** A run of the service: the adds of [requests], one after the other,
    each given its name and its email as the query holds them. *)
Definition adds (requests : list (option string * option string))
    (st : State) : State :=
  fold_left (fun st r => fst (handle_add_user (fst r) (snd r) st))
    requests st.

(** The file is the saved list, or there is neither file nor user. *)
Definition in_step (st : State) : Prop :=
  file st = Some (file_text (users st))
  \/ (file st = None /\ users st = []).

(** The service as it starts when there is no file. *)
Definition started_without_file : State :=
  load_users_from_file {| users := []; file := None |}.

(** The line of [handle_get_users] for one user. *)
Definition listing_line (u : User) : string :=
  "ID: " ++ Py.str_of_int (id u) ++ ", Name: " ++ name u ++ ", Email: "
  ++ email u ++ String Py.LF "".

(** A user without line break (LF or CR) in the name and the email. *)
Definition break_free (u : User) : bool :=
  negb (Py.occurs Py.LF (name u)) && negb (Py.occurs Py.CR (name u))
  && negb (Py.occurs Py.LF (email u)) && negb (Py.occurs Py.CR (email u)).

(** A user without comma in the name and the email. *)
Definition comma_free (u : User) : bool :=
  negb (Py.occurs ","%char (name u)) && negb (Py.occurs ","%char (email u)).

(** The user as the loader reads its line back: the white space that ends
    the line, and so the email, is gone. *)
Definition read_back (u : User) : User :=
  {| id := id u; name := name u; email := Py.rstrip (email u) |}.

End FlatFile.

(** ** The database-backed variant: [src/userator/api_1.py] *)

Module Userator.

(** *** The storage collaborator: [sqlite3] on [users.db] *)

(** A row of the table [users]:
    [id INTEGER PRIMARY KEY AUTOINCREMENT, name TEXT NOT NULL,
     email TEXT UNIQUE NOT NULL, age INTEGER DEFAULT 0]. *)
Record Row := { row_id : Z; row_name : string; row_email : string;
                row_age : option Z }.

(** The database file: the table and the counter that [AUTOINCREMENT]
    keeps for it in [sqlite_sequence]. *)
Record Database := { users : list Row; sqlite_sequence : Z }.

(** The three statements the service executes. *)
Inductive statement :=
| INSERT_INTO_users (name email : string) (age : option Z)
| SELECT_FROM_users_WHERE_id (id : Z)
| SELECT_FROM_users_ORDER_BY_id_LIMIT_OFFSET (limit offset : Z).

(** A connection: the file as committed, the file as this connection sees it
    (with the changes of its open transaction), whether it is open, and the
    statements it was given to execute, oldest first. *)
Record Connection := { committed : Database; working : Database;
                       is_open : bool; executed : list statement }.

Inductive sqlite3_Error :=
| IntegrityError (msg : string)
| OperationalError (msg : string)
| ProgrammingError (msg : string).

(** [str(e)] *)
Definition sqlite3_Error_str (e : sqlite3_Error) : string :=
  match e with
  | IntegrityError msg | OperationalError msg | ProgrammingError msg => msg
  end.

(** One validation error of pydantic: where and of which type. *)
Record error := { loc : string; type : string }.

Inductive exn :=
| sqlite3 (e : sqlite3_Error)
| HTTPException (status_code : Z) (detail : string)
| ValidationError (errors : list error)
| RequestValidationError (errors : list error).

(** Code that runs on a connection and returns or raises. *)
Inductive outcome (A : Type) := Returned (a : A) | Raised (e : exn).
Arguments Returned {A} a.
Arguments Raised {A} e.

Definition M (A : Type) : Type := Connection -> outcome A * Connection.

Definition ret {A} (a : A) : M A := fun db => (Returned a, db).
Definition raise {A} (e : exn) : M A := fun db => (Raised e, db).
Definition bind {A B} (m : M A) (k : A -> M B) : M B :=
  fun db => match m db with
            | (Returned a, db') => k a db'
            | (Raised e, db') => (Raised e, db')
            end.

(** [try: body  except ...: handlers]: [handlers e] is the clause that
    catches [e], if one does. *)
Definition try_except {A} (body : M A) (handlers : exn -> option (M A)) : M A :=
  fun db => match body db with
            | (Returned a, db') => (Returned a, db')
            | (Raised e, db') =>
                match handlers e with
                | Some handler => handler db'
                | None => (Raised e, db')
                end
            end.

(** [try: body  finally: final] *)
Definition try_finally {A} (body : M A) (final : M unit) : M A :=
  fun db => match body db with
            | (r, db') =>
                match final db' with
                | (Returned _, db'') => (r, db'')
                | (Raised e, db'') => (Raised e, db'')
                end
            end.

Declare Scope py_scope.
Delimit Scope py_scope with py.
Notation "x <- m ;; k" := (bind m (fun x => k))
  (at level 61, m at next level, right associativity) : py_scope.
Notation "m ;; k" := (bind m (fun _ => k))
  (at level 61, right associativity) : py_scope.
Local Open Scope py_scope.

(** [sqlite3.connect(DATABASE_URL)] *)
Definition connect (file : Database) : Connection :=
  {| committed := file; working := file; is_open := true; executed := [] |}.

Definition closed_database {A} : M A :=
  raise (sqlite3 (ProgrammingError "Cannot operate on a closed database.")).

Definition commit : M unit :=
  fun db =>
    if is_open db then
      (Returned tt, {| committed := working db; working := working db;
                       is_open := true; executed := executed db |})
    else closed_database db.

Definition rollback : M unit :=
  fun db =>
    if is_open db then
      (Returned tt, {| committed := committed db; working := committed db;
                       is_open := true; executed := executed db |})
    else closed_database db.

(** [db.close()]: the changes of an open transaction are lost. *)
Definition close : M unit :=
  fun db => (Returned tt, {| committed := committed db;
                             working := committed db; is_open := false;
                             executed := executed db |}).

Record Cursor := { rows : list Row; lastrowid : option Z }.

Definition fetchone (c : Cursor) : option Row := hd_error (rows c).
Definition fetchall (c : Cursor) : list Row := rows c.

(** The rowid [AUTOINCREMENT] gives the next row: one more than the largest
    in the table, and more than any the counter remembers.  Ids are Python
    integers here; the engine's upper bound on rowids is not modelled. *)
Definition new_rowid (d : Database) : Z :=
  let v := match users d with
           | [] => 1
           | r :: rs => fold_left Z.max (map row_id rs) (row_id r) + 1
           end in
  Z.max v (sqlite_sequence d + 1).

Definition email_taken (email : string) (d : Database) : bool :=
  existsb (fun r => String.eqb (row_email r) email) (users d).

(** [ORDER BY id] *)
Fixpoint insert_by_id (r : Row) (l : list Row) : list Row :=
  match l with
  | [] => [r]
  | r' :: l' => if (row_id r <=? row_id r')%Z then r :: l
                else r' :: insert_by_id r l'
  end.

Definition order_by_id (l : list Row) : list Row :=
  fold_right insert_by_id [] l.

(** [LIMIT ? OFFSET ?]: a negative limit is no limit, a negative offset is
    none. *)
Definition limit_offset (limit offset : Z) (l : list Row) : list Row :=
  let l := skipn (Z.to_nat offset) l in
  if (limit <? 0)%Z then l else firstn (Z.to_nat limit) l.

Definition run_statement (stmt : statement) (d : Database)
  : sqlite3_Error + (Cursor * Database) :=
  match stmt with
  | INSERT_INTO_users name email age =>
      if email_taken email d then
        inl (IntegrityError "UNIQUE constraint failed: users.email")
      else
        let id := new_rowid d in
        inr ({| rows := []; lastrowid := Some id |},
             {| users := (users d ++ [ {| row_id := id; row_name := name;
                                          row_email := email;
                                          row_age := age |} ])%list;
                sqlite_sequence := id |})
  | SELECT_FROM_users_WHERE_id id =>
      inr ({| rows := filter (fun r => (row_id r =? id)%Z) (users d);
              lastrowid := None |}, d)
  | SELECT_FROM_users_ORDER_BY_id_LIMIT_OFFSET limit offset =>
      inr ({| rows := limit_offset limit offset (order_by_id (users d));
              lastrowid := None |}, d)
  end.

(** [db.execute(sql, parameters)] *)
Definition execute (stmt : statement) : M Cursor :=
  fun db =>
    if is_open db then
      let log := (executed db ++ [stmt])%list in
      match run_statement stmt (working db) with
      | inl e =>
          (Raised (sqlite3 e),
           {| committed := committed db; working := working db;
              is_open := true; executed := log |})
      | inr (cursor, d) =>
          (Returned cursor,
           {| committed := committed db; working := d;
              is_open := true; executed := log |})
      end
    else closed_database db.

(** [create_db_and_tables]: [CREATE TABLE IF NOT EXISTS users]; [None] is a
    file without the table. *)
Definition create_db_and_tables (file : option Database) : Database :=
  match file with
  | Some d => d
  | None => {| users := []; sqlite_sequence := 0 |}
  end.

(** [get_db_connection], a generator used as a dependency: what stands
    before [yield] opens the connection, the request runs at [yield], and
    [finally] closes.  The two PRAGMAs change how the file is journalled
    and synced, not what the three statements see. *)
Definition get_db_connection {A} (request : M A) (file : Database)
  : outcome A * Connection :=
  let db := connect file in
  try_finally request close db.

Section Service.

(** *** The pydantic models *)

(** [EmailStr]: the [email_validator] package decides what an email
    address is; it gives the normalised address, or [None] when the text
    is not one. *)
Variable validate_email : string -> option string.

(** What a JSON body holds for a field of type [A]: nothing, [null], a
    value that is not an [A], or an [A]. *)
Inductive json_field (A : Type) :=
| Missing
| Null
| WrongType
| Value (a : A).
Arguments Missing {A}.
Arguments Null {A}.
Arguments WrongType {A}.
Arguments Value {A} a.

(** [class UserBase(BaseModel)] and [class UserCreate(UserBase): pass] *)
Record UserBase := { name : string; email : string; age : option Z }.
Definition UserCreate : Type := UserBase.

(** [class UserResponse(UserBase)] with [id: int] *)
Record UserResponse := { base : UserBase; id : Z }.

Definition validate_name (v : json_field string) : list error + string :=
  match v with
  | Missing => inl [ {| loc := "name"; type := "missing" |} ]
  | Value s => inr s
  | _ => inl [ {| loc := "name"; type := "string_type" |} ]
  end.

(** [email: EmailStr] *)
Definition validate_email_field (v : json_field string)
  : list error + string :=
  match v with
  | Missing => inl [ {| loc := "email"; type := "missing" |} ]
  | Value s =>
      match validate_email s with
      | Some normalized => inr normalized
      | None => inl [ {| loc := "email"; type := "value_error" |} ]
      end
  | _ => inl [ {| loc := "email"; type := "string_type" |} ]
  end.

(** [age: Optional[int] = Field(default=0, ge=0)] *)
Definition validate_age (v : json_field Z) : list error + option Z :=
  match v with
  | Missing => inr (Some 0)
  | Null => inr None
  | WrongType => inl [ {| loc := "age"; type := "int_parsing" |} ]
  | Value a =>
      if (0 <=? a)%Z then inr (Some a)
      else inl [ {| loc := "age"; type := "greater_than_equal" |} ]
  end.

(** [id: int] *)
Definition validate_id (v : json_field Z) : list error + Z :=
  match v with
  | Missing => inl [ {| loc := "id"; type := "missing" |} ]
  | Value i => inr i
  | _ => inl [ {| loc := "id"; type := "int_type" |} ]
  end.

Definition errors_of {A} (r : list error + A) : list error :=
  match r with
  | inl errors => errors
  | inr _ => []
  end.

(** Validation of the fields of [UserBase]: every failing field reports. *)
Definition UserBase_validate (name email : json_field string)
    (age : json_field Z) : list error + UserBase :=
  match validate_name name, validate_email_field email, validate_age age with
  | inr n, inr e, inr a => inr {| name := n; email := e; age := a |}
  | rn, re, ra => inl (errors_of rn ++ errors_of re ++ errors_of ra)%list
  end.

Definition UserResponse_validate (name email : json_field string)
    (age id : json_field Z) : list error + UserResponse :=
  match UserBase_validate name email age, validate_id id with
  | inr b, inr i => inr {| base := b; id := i |}
  | rb, ri => inl (errors_of rb ++ errors_of ri)%list
  end.

Definition optional {A} (v : option A) : json_field A :=
  match v with
  | Some a => Value a
  | None => Null
  end.

(** [UserResponse(id=..., name=..., email=..., age=...)] *)
Definition UserResponse_init (id : Z) (name email : string)
    (age : option Z) : M UserResponse :=
  match UserResponse_validate (Value name) (Value email) (optional age)
          (Value id) with
  | inr u => ret u
  | inl errors => raise (ValidationError errors)
  end.

(** [UserResponse.model_validate(dict(row))] *)
Definition model_validate (row : Row) : M UserResponse :=
  match UserResponse_validate (Value (row_name row)) (Value (row_email row))
          (optional (row_age row)) (Value (row_id row)) with
  | inr u => ret u
  | inl errors => raise (ValidationError errors)
  end.

(** A list comprehension whose element expression may raise. *)
Fixpoint for_each {A B} (f : A -> M B) (l : list A) : M (list B) :=
  match l with
  | [] => ret []
  | a :: l' => b <- f a ;; bs <- for_each f l' ;; ret (b :: bs)
  end.

(** *** The path operations *)

Definition add_user (user_in : UserCreate) : M UserResponse :=
  try_except
    (cursor <- execute (INSERT_INTO_users (name user_in) (email user_in)
                          (age user_in)) ;;
     commit ;;
     match lastrowid cursor with
     | Some created_user_id =>
         UserResponse_init created_user_id (name user_in) (email user_in)
           (age user_in)
     | None =>
         raise (ValidationError [ {| loc := "id"; type := "int_type" |} ])
     end)
    (fun e =>
       match e with
       | sqlite3 (IntegrityError _ as e) =>
           Some (rollback ;;
                 if Py.contains "UNIQUE constraint failed: users.email"
                      (sqlite3_Error_str e)
                 then raise (HTTPException 409
                               ("Email '" ++ email user_in
                                ++ "' already exists."))
                 else raise (HTTPException 500
                               "A database integrity error occurred."))
       | sqlite3 _ =>
           Some (rollback ;;
                 raise (HTTPException 500
                          "An internal error occurred while adding the user."))
       | _ => None
       end).

Definition get_users (user_id : option Z) (skip limit : Z)
  : M (list UserResponse) :=
  match user_id with
  | Some user_id =>
      cursor <- execute (SELECT_FROM_users_WHERE_id user_id) ;;
      match fetchone cursor with
      | None =>
          raise (HTTPException 404
                   ("User with ID " ++ Py.str_of_int user_id ++ " not found"))
      | Some user_row => u <- model_validate user_row ;; ret [u]
      end
  | None =>
      cursor <- execute
                  (SELECT_FROM_users_ORDER_BY_id_LIMIT_OFFSET limit skip) ;;
      for_each model_validate (fetchall cursor)
  end.

Definition get_user_by_id (user_id_path : Z) : M UserResponse :=
  cursor <- execute (SELECT_FROM_users_WHERE_id user_id_path) ;;
  match fetchone cursor with
  | None =>
      raise (HTTPException 404
               ("User with ID " ++ Py.str_of_int user_id_path ++ " not found"))
  | Some user_row => model_validate user_row
  end.

(** *** FastAPI: from a request to a response *)

(** The JSON body of [POST /users/]. *)
Record UserCreate_json := { json_name : json_field string;
                            json_email : json_field string;
                            json_age : json_field Z }.

(** A query or path parameter declared [int]: not given, given but not an
    integer, or an integer. *)
Inductive param := Absent | NotInt | Int (z : Z).

Inductive Request :=
| POST_users (body : UserCreate_json)
| GET_users (user_id skip limit : param)
| GET_users_id (user_id_path : param).

Definition UserCreate_of_json (body : UserCreate_json)
  : list error + UserCreate :=
  UserBase_validate (json_name body) (json_email body) (json_age body).

(** [Query(default, ge=..., le=...)] *)
Definition Query (name : string) (default : option Z) (ge le : option Z)
    (p : param) : list error + option Z :=
  match p with
  | Absent => inr default
  | NotInt => inl [ {| loc := name; type := "int_parsing" |} ]
  | Int z =>
      if match ge with Some b => (z <? b)%Z | None => false end then
        inl [ {| loc := name; type := "greater_than_equal" |} ]
      else if match le with Some b => (b <? z)%Z | None => false end then
        inl [ {| loc := name; type := "less_than_equal" |} ]
      else inr (Some z)
  end.

(** The parameters of [get_users] as declared: [user_id] optional,
    [skip] at least 0 and 0 when absent, [limit] in 1..100 and 10 when
    absent. *)
Definition get_users_params (user_id skip limit : param)
  : list error + (option Z * Z * Z) :=
  match Query "user_id" None None None user_id,
        Query "skip" (Some 0) (Some 0) None skip,
        Query "limit" (Some 10) (Some 1) (Some 100) limit with
  | inr u, inr (Some s), inr (Some l) => inr (u, s, l)
  | ru, rs, rl => inl (errors_of ru ++ errors_of rs ++ errors_of rl)%list
  end.

(** The path parameter [user_id_path: int]. *)
Definition get_user_by_id_params (user_id_path : param) : list error + Z :=
  match user_id_path with
  | Int z => inr z
  | Absent => inl [ {| loc := "user_id_path"; type := "missing" |} ]
  | NotInt => inl [ {| loc := "user_id_path"; type := "int_parsing" |} ]
  end.

(** The path operation runs when its parameters validate. *)
Definition call {Args A} (params : list error + Args) (f : Args -> M A)
  : M A :=
  match params with
  | inr args => f args
  | inl errors => raise (RequestValidationError errors)
  end.

Inductive content :=
| JSON_user (u : UserResponse)
| JSON_users (us : list UserResponse)
| JSON_detail (detail : string)
| JSON_errors (detail : list error)
| Internal_Server_Error.

Record Response := { status : Z; body : content }.

Definition response {A} (status_code : Z) (render : A -> content)
    (o : outcome A) : Response :=
  match o with
  | Returned a => {| status := status_code; body := render a |}
  | Raised (HTTPException s detail) =>
      {| status := s; body := JSON_detail detail |}
  | Raised (RequestValidationError errors) =>
      {| status := 422; body := JSON_errors errors |}
  | Raised _ => {| status := 500; body := Internal_Server_Error |}
  end.

(** One request: the response, and the connection as the request leaves
    it. *)
Definition handle (r : Request) (file : Database) : Response * Connection :=
  match r with
  | POST_users body =>
      let (o, db) :=
        get_db_connection (call (UserCreate_of_json body) add_user) file in
      (response 201 JSON_user o, db)
  | GET_users user_id skip limit =>
      let (o, db) :=
        get_db_connection
          (call (get_users_params user_id skip limit)
             (fun '(user_id, skip, limit) => get_users user_id skip limit))
          file in
      (response 200 JSON_users o, db)
  | GET_users_id user_id_path =>
      let (o, db) :=
        get_db_connection
          (call (get_user_by_id_params user_id_path) get_user_by_id) file in
      (response 200 JSON_user o, db)
  end.

(** The database file a request leaves behind. *)
Definition file_after (r : Request) (file : Database) : Database :=
  committed (snd (handle r file)).

(** *** Vocabulary for the properties of the service *)

(** The user a row reads as (what [model_validate] computes). *)
Definition to_response (row : Row) : list error + UserResponse :=
  UserResponse_validate (Value (row_name row)) (Value (row_email row))
    (optional (row_age row)) (Value (row_id row)).

Definition valid_row (row : Row) : bool :=
  match to_response row with
  | inr _ => true
  | inl _ => false
  end.

Fixpoint distinct (l : list Z) : bool :=
  match l with
  | [] => true
  | x :: l' => negb (existsb (Z.eqb x) l') && distinct l'
  end.

(** The invariants of the data model on a database file: [id] is a primary
    key, and every row is a user (its email is an email address, its age is
    not negative). *)
Definition well_formed (file : Database) : bool :=
  distinct (map row_id (users file)) && forallb valid_row (users file).


(** A query parameter within its declared range, or left out. *)
Definition in_range (lo : Z) (hi : option Z) (p : param) : bool :=
  match p with
  | Absent => true
  | NotInt => false
  | Int z => (lo <=? z)%Z && match hi with
                             | Some h => (z <=? h)%Z
                             | None => true
                             end
  end.

(** A connection that was closed on [file], having executed [log]. *)
Definition closed_on (file : Database) (log : list statement) : Connection :=
  {| committed := file; working := file; is_open := false; executed := log |}.

(** The file with a row for [u] added. *)
Definition with_user (u : UserCreate) (file : Database) : Database :=
  {| users := (users file
               ++ [ {| row_id := new_rowid file; row_name := name u;
                       row_email := email u; row_age := age u |} ])%list;
     sqlite_sequence := new_rowid file |}.

(** A response that holds one user, as a response that holds the list of
    that user. *)
Definition in_a_list (r : Response) : Response :=
  match body r with
  | JSON_user u => {| status := status r; body := JSON_users [u] |}
  | _ => r
  end.

(** The users a list of rows reads as; the first row that is no user
    decides otherwise. *)
Fixpoint to_responses (rows : list Row) : list error + list UserResponse :=
  match rows with
  | [] => inr []
  | row :: rows' =>
      match to_response row with
      | inl errors => inl errors
      | inr u =>
          match to_responses rows' with
          | inl errors => inl errors
          | inr us => inr (u :: us)
          end
      end
  end.





(** The operations of the record service, in the words of the
    specification: [getById] and [list] (here [list_users]) are the two
    lookups, and [getOrList] behaves as [getById] wrapped in a
    single-element sequence when an id is supplied, and as [list]
    otherwise. *)
Definition getById (id : Z) : M UserResponse := get_user_by_id id.

Definition list_users (skip limit : Z) : M (list UserResponse) :=
  get_users None skip limit.

Definition getOrList (id : option Z) (skip limit : Z)
  : M (list UserResponse) :=
  match id with
  | Some id => u <- getById id ;; ret [u]
  | None => list_users skip limit
  end.

End Service.

Arguments Missing {A}.
Arguments Null {A}.
Arguments WrongType {A}.
Arguments Value {A} a.

(** *** The harness of the tests: [src/userator/test_api1.py] *)

Section TestClient.

Variable validate_email : string -> option string.

(** The fixture [test_db_conn], up to its [yield]: a connection to a new
    database in memory, with the table created. *)
Definition test_db_conn : Connection :=
  connect (create_db_and_tables None).

(** [override_get_db_connection] of the fixture [client]: the dependency
    hands over the connection of the fixture, and its [finally] leaves
    closing it to the fixture. *)
Definition override_get_db_connection {A} (request : M A)
    (test_db_conn : Connection) : outcome A * Connection :=
  try_finally request (ret tt) test_db_conn.

(** A request made through the test client, with the dependency
    overridden: the response, and the connection of the fixture after
    it. *)
Definition client (r : Request) (test_db_conn : Connection)
  : Response * Connection :=
  match r with
  | POST_users body =>
      let (o, db) :=
        override_get_db_connection
          (call (UserCreate_of_json validate_email body)
             (add_user validate_email)) test_db_conn in
      (response 201 JSON_user o, db)
  | GET_users user_id skip limit =>
      let (o, db) :=
        override_get_db_connection
          (call (get_users_params user_id skip limit)
             (fun '(user_id, skip, limit) =>
                get_users validate_email user_id skip limit))
          test_db_conn in
      (response 200 JSON_users o, db)
  | GET_users_id user_id_path =>
      let (o, db) :=
        override_get_db_connection
          (call (get_user_by_id_params user_id_path)
             (get_user_by_id validate_email)) test_db_conn in
      (response 200 JSON_user o, db)
  end.

(** [_add_sample_users]: the two users are inserted one after the other
    through a cursor, then committed; each comes back with the id it
    got. *)
Definition users_data : list UserBase :=
  [ {| name := "Alice"; email := "alice@example.com"; age := Some 28 |};
    {| name := "Bob"; email := "bob@example.com"; age := Some 32 |} ].

Fixpoint insert_each (users_data : list UserBase)
  : M (list (UserBase * option Z)) :=
  match users_data with
  | [] => ret []
  | user :: rest =>
      cursor <- execute (INSERT_INTO_users (name user) (email user)
                           (age user)) ;;
      inserted_users <- insert_each rest ;;
      ret ((user, lastrowid cursor) :: inserted_users)
  end.

Definition _add_sample_users : M (list (UserBase * option Z)) :=
  inserted_users <- insert_each users_data ;;
  commit ;;
  ret inserted_users.

(** *** More vocabulary for the properties of the service *)


(** An open connection without changes that wait for a commit, on [file],
    that was given [log] so far. *)
Definition clean_on (file : Database) (log : list statement) : Connection :=
  {| committed := file; working := file; is_open := true; executed := log |}.

End TestClient.

End Userator.

(** ** Running the service *)

(** A stand-in for the [email_validator] package, to run the service on
    concrete requests: one [@], something before it, a dot somewhere after
    it, no blank; the address is kept as it is. *)
Definition simple_email (s : string) : option string :=
  match Py.split "@"%char s with
  | [local; domain] =>
      if Py.truthy (Some local)
         && (1 <? List.length (Py.split "."%char domain))%nat
         && negb (existsb Py.isspace (list_ascii_of_string s))
      then Some s else None
  | _ => None
  end.

Section Samples.

Import Userator.

(** The table after [_add_sample_users] of the tests. *)
Definition sample_file : Database :=
  {| users := [ {| row_id := 1; row_name := "Alice";
                   row_email := "alice@example.com"; row_age := Some 28 |};
                {| row_id := 2; row_name := "Bob";
                   row_email := "bob@example.com"; row_age := Some 32 |} ];
     sqlite_sequence := 2 |}.

Definition first_user : UserCreate_json :=
  {| json_name := Value "First User";
     json_email := Value "duplicate@example.com"; json_age := Value 25 |}.

Definition second_user : UserCreate_json :=
  {| json_name := Value "Second User";
     json_email := Value "duplicate@example.com"; json_age := Value 35 |}.

Definition negative_age : UserCreate_json :=
  {| json_name := Value "Negative Age";
     json_email := Value "duplicate@example.com"; json_age := Value (-5) |}.

(** What the assertions of the tests look for in a response. *)
Definition has_error (loc type : string) (r : Response) : bool :=
  match body r with
  | JSON_errors errors =>
      existsb (fun e => String.eqb (Userator.loc e) loc
                        && Py.contains type (Userator.type e)) errors
  | _ => false
  end.

Definition detail_has (needle : string) (r : Response) : bool :=
  match body r with
  | JSON_detail detail => Py.contains needle detail
  | _ => false
  end.

End Samples.

(** * Properties *)

(** ** The Python built-ins on examples *)

Example ex_strip : Py.strip "  a b
" = "a b".
Proof. reflexivity. Qed.
Example ex_split : Py.split ","%char "1,a,,b" = ["1"; "a"; ""; "b"].
Proof. reflexivity. Qed.
Example ex_int : Py.int " +1_000 " = Some 1000 /\ Py.int "-0" = Some 0 /\ Py.int "1__0" = None /\ Py.int "_1" = None /\ Py.int "1_" = None /\ Py.int "" = None /\ Py.int "+" = None /\ Py.int "12a" = None.
Proof. repeat split; reflexivity. Qed.
Example ex_str : Py.str_of_int 0 = "0" /\ Py.str_of_int (-15) = "-15" /\ Py.str_of_int 1203 = "1203".
Proof. repeat split; reflexivity. Qed.
Example ex_lines : Py.iter_lines (Py.universal_newlines (String "a" (String Py.CR (String Py.LF (String "b" (String Py.CR "c")))))) = [String "a" (String Py.LF ""); String "b" (String Py.LF ""); "c"].
Proof. reflexivity. Qed.


(** ** Facts about the Python built-ins *)

Section PyFacts.

Import Py.

Lemma append_nil_r (s : string) : s ++ "" = s.
Proof. induction s; simpl; congruence. Qed.

Lemma append_assoc (a b c : string) : (a ++ b) ++ c = a ++ b ++ c.
Proof. induction a; simpl; congruence. Qed.

Lemma occurs_app c a b : occurs c (a ++ b) = occurs c a || occurs c b.
Proof.
  induction a as [|x a IH]; simpl; [reflexivity|].
  now rewrite IH, orb_assoc.
Qed.

(** *** [split] *)

Lemma split_absent sep s : occurs sep s = false -> split sep s = [s].
Proof.
  induction s as [|c s IH]; simpl; [reflexivity|].
  intros H. apply orb_false_iff in H as [Hc Hs].
  rewrite Hc, (IH Hs). reflexivity.
Qed.

Lemma split_app sep a b :
  occurs sep a = false ->
  split sep (a ++ String sep b) = a :: split sep b.
Proof.
  induction a as [|c a IH]; simpl.
  - intros _. now rewrite Ascii.eqb_refl.
  - intros H. apply orb_false_iff in H as [Hc Ha].
    rewrite Hc, (IH Ha). reflexivity.
Qed.

(** *** [strip] *)

Lemma rstrip_app a b :
  rstrip b <> "" -> rstrip (a ++ b) = a ++ rstrip b.
Proof.
  intros Hb. induction a as [|c a IH]; simpl; [reflexivity|].
  rewrite IH. destruct (a ++ rstrip b) eqn:E; [|reflexivity].
  destruct a; simpl in E; [contradiction | discriminate].
Qed.

Lemma rstrip_space c : isspace c = true -> rstrip (String c "") = "".
Proof. intros H; simpl; now rewrite H. Qed.

Lemma rstrip_app_space a c :
  isspace c = true -> rstrip (a ++ String c "") = rstrip a.
Proof.
  intros Hc. induction a as [|x a IH]; simpl.
  - now rewrite Hc.
  - now rewrite IH.
Qed.

Lemma rstrip_idem s : rstrip (rstrip s) = rstrip s.
Proof.
  induction s as [|c s IH]; simpl; [reflexivity|].
  destruct (rstrip s) as [|c' r] eqn:E.
  - destruct (isspace c) eqn:Hc; simpl; [reflexivity|now rewrite Hc].
  - simpl in *. now rewrite IH.
Qed.

(** *** Lines *)

Lemma universal_newlines_id s :
  occurs CR s = false -> universal_newlines s = s.
Proof.
  induction s as [|c s IH]; simpl; [reflexivity|].
  intros H. apply orb_false_iff in H as [Hc Hs].
  rewrite Hc, (IH Hs). reflexivity.
Qed.

Lemma iter_lines_app l rest :
  occurs LF l = false ->
  iter_lines (l ++ String LF rest) = (l ++ String LF "") :: iter_lines rest.
Proof.
  induction l as [|c l IH]; simpl.
  - intros _. reflexivity.
  - intros H. apply orb_false_iff in H as [Hc Hl].
    rewrite Hc, (IH Hl). reflexivity.
Qed.

(** *** [int] and [str] *)

Lemma int_digits_string_of_uint d acc b :
  int_digits acc b (NilEmpty.string_of_uint d) =
  match d with
  | Decimal.Nil => if b then Some acc else None
  | _ => Some (uint_value d acc)
  end.
Proof.
  revert acc b.
  induction d; intros acc b; cbn -[Z.mul Z.add digit_of]; try reflexivity;
    match goal with
    | |- context [digit_of ?c] =>
        let v := eval vm_compute in (digit_of c) in
        change (digit_of c) with v
    end;
    cbv iota beta; rewrite IHd, ?Z.add_0_r; destruct d; reflexivity.
Qed.

Lemma uint_value_pos d acc :
  uint_value d (Zpos acc) = Zpos (Pos.of_uint_acc d acc).
Proof.
  revert acc.
  induction d; intros acc; cbn -[Z.mul Z.add Pos.mul Pos.add];
    try reflexivity; rewrite <- IHd; f_equal; lia.
Qed.

Lemma uint_value_0 d : uint_value d 0 = Z.of_N (Pos.of_uint d).
Proof.
  induction d; simpl; try reflexivity; try assumption;
    apply (uint_value_pos d).
Qed.

Lemma uint_value_to_uint p : uint_value (Pos.to_uint p) 0 = Zpos p.
Proof. now rewrite uint_value_0, DecimalPos.Unsigned.of_to. Qed.

Lemma string_of_uint_digits d :
  all_chars (fun c => match digit_of c with Some _ => true | None => false end)
    (NilEmpty.string_of_uint d) = true.
Proof. induction d; simpl; auto. Qed.

Lemma all_chars_impl (p q : ascii -> bool) s :
  (forall c, p c = true -> q c = true) ->
  all_chars p s = true -> all_chars q s = true.
Proof.
  intros Hpq. induction s as [|c s IH]; simpl; [reflexivity|].
  intros H. apply andb_true_iff in H as [Hc Hs].
  now rewrite (Hpq _ Hc), (IH Hs).
Qed.

Lemma string_of_uint_nonempty d :
  d <> Decimal.Nil -> NilEmpty.string_of_uint d <> "".
Proof. destruct d; simpl; congruence. Qed.

Lemma str_of_int_numeric n : all_chars numeric (str_of_int n) = true.
Proof.
  assert (Hd : forall d, all_chars numeric (NilZero.string_of_uint d) = true).
  { intros d. unfold NilZero.string_of_uint.
    destruct d; try reflexivity;
      (eapply all_chars_impl; [|apply string_of_uint_digits]);
      intros c; unfold numeric; now destruct (digit_of c). }
  unfold str_of_int, NilZero.string_of_int.
  destruct (Z.to_int n); [apply Hd|]. simpl. apply Hd.
Qed.

Lemma str_of_int_nonempty n : str_of_int n <> "".
Proof.
  unfold str_of_int, NilZero.string_of_int, NilZero.string_of_uint.
  destruct (Z.to_int n) as [d|d]; [|discriminate].
  destruct d; discriminate.
Qed.

Lemma numeric_spec c :
  numeric c = true ->
  isspace c = false /\ Ascii.eqb c "," = false /\ Ascii.eqb c LF = false
  /\ Ascii.eqb c CR = false.
Proof.
  destruct c as [[] [] [] [] [] [] [] []]; vm_compute; intros H;
    try discriminate H; repeat split.
Qed.

Lemma all_chars_occurs p c s :
  (forall x, p x = true -> Ascii.eqb x c = false) ->
  all_chars p s = true -> occurs c s = false.
Proof.
  intros Hp. induction s as [|x s IH]; simpl; [reflexivity|].
  intros H. apply andb_true_iff in H as [Hx Hs].
  now rewrite (Hp _ Hx), (IH Hs).
Qed.

Lemma strip_no_space s :
  all_chars (fun c => negb (isspace c)) s = true -> strip s = s.
Proof.
  unfold strip. intros H.
  assert (Hl : lstrip s = s).
  { destruct s as [|c s]; simpl in *; [reflexivity|].
    apply andb_true_iff in H as [Hc _].
    apply negb_true_iff in Hc. now rewrite Hc. }
  rewrite Hl. clear Hl.
  induction s as [|c s IH]; simpl in *; [reflexivity|].
  apply andb_true_iff in H as [Hc Hs]. apply negb_true_iff in Hc.
  rewrite (IH Hs). destruct s; [now rewrite Hc | reflexivity].
Qed.

Lemma int_literal_digits s :
  s <> "" ->
  all_chars (fun c => match digit_of c with Some _ => true | None => false end)
    s = true ->
  int_literal s = int_digits 0 false s.
Proof.
  destruct s as [|c s]; [congruence|]. intros _ H.
  simpl in H. apply andb_true_iff in H as [Hc _].
  unfold int_literal.
  assert (Ascii.eqb c "-" = false /\ Ascii.eqb c "+" = false) as [-> ->];
    [|reflexivity].
  revert Hc. destruct c as [[] [] [] [] [] [] [] []]; vm_compute;
    intros H; try discriminate H; split; reflexivity.
Qed.

Lemma int_literal_to_uint p :
  int_literal (NilEmpty.string_of_uint (Pos.to_uint p)) = Some (Zpos p).
Proof.
  pose proof (DecimalPos.Unsigned.to_uint_nonnil p) as Hnil.
  rewrite int_literal_digits;
    [| now apply string_of_uint_nonempty | apply string_of_uint_digits].
  rewrite int_digits_string_of_uint, uint_value_to_uint.
  destruct (Pos.to_uint p); [contradiction| reflexivity ..].
Qed.

(** [int(str(n)) == n] *)
Lemma int_str_of_int n : int (str_of_int n) = Some n.
Proof.
  unfold int. rewrite strip_no_space.
  2:{ eapply all_chars_impl; [|apply str_of_int_numeric].
      intros c Hc. apply numeric_spec in Hc as [-> _]. reflexivity. }
  unfold str_of_int, NilZero.string_of_int, NilZero.string_of_uint.
  destruct n as [|p|p]; simpl Z.to_int.
  - reflexivity.
  - pose proof (DecimalPos.Unsigned.to_uint_nonnil p) as Hnil.
    pose proof (int_literal_to_uint p) as Hp.
    destruct (Pos.to_uint p); [contradiction| exact Hp ..].
  - pose proof (DecimalPos.Unsigned.to_uint_nonnil p) as Hnil.
    pose proof (int_digits_string_of_uint (Pos.to_uint p) 0 false) as Hd.
    rewrite uint_value_to_uint in Hd.
    assert (Hs : int_digits 0 false
                   match Pos.to_uint p with
                   | Decimal.Nil => "0"
                   | _ => NilEmpty.string_of_uint (Pos.to_uint p)
                   end = Some (Zpos p)).
    { destruct (Pos.to_uint p); [contradiction| exact Hd ..]. }
    unfold int_literal. cbn [Ascii.eqb Bool.eqb]. now rewrite Hs.
Qed.

End PyFacts.

(** ** The flat-file variant *)

Section FlatFileFacts.

Import FlatFile.

Lemma load_line_spec us line :
  load_line us line =
  if malformed line then us else (us ++ [user_of_line line])%list.
Proof.
  unfold load_line, malformed, user_of_line, line_parts.
  destruct (Py.strip line) as [|c l] eqn:E; [reflexivity|].
  change (Py.truthy (Some (String c l))) with true. cbv iota.
  generalize (Py.split "," (String c l)) as parts. intros parts.
  destruct (List.length parts =? 3)%nat; [|reflexivity].
  destruct (Py.int (nth 0 parts "")); reflexivity.
Qed.



Lemma storable_spec u :
  storable u = true ->
  (Py.occurs "," (name u) = false /\ Py.occurs Py.LF (name u) = false
   /\ Py.occurs Py.CR (name u) = false)
  /\ (Py.occurs "," (email u) = false /\ Py.occurs Py.LF (email u) = false
      /\ Py.occurs Py.CR (email u) = false)
  /\ Py.rstrip (email u) = email u.
Proof.
  unfold storable, plain. intros H.
  repeat match goal with
         | X : _ && _ = true |- _ => apply andb_true_iff in X as [? ?]
         | X : negb _ = true |- _ => apply negb_true_iff in X
         | X : String.eqb _ _ = true |- _ => apply String.eqb_eq in X
         end.
  repeat split; assumption.
Qed.

Lemma str_of_int_occurs n c :
  (forall x, Py.numeric x = true -> Ascii.eqb x c = false) ->
  Py.occurs c (Py.str_of_int n) = false.
Proof.
  intros H. eapply all_chars_occurs; [exact H | apply str_of_int_numeric].
Qed.

Lemma User_str_occurs c u :
  (forall x, Py.numeric x = true -> Ascii.eqb x c = false) ->
  Ascii.eqb "," c = false ->
  Py.occurs c (name u) = false -> Py.occurs c (email u) = false ->
  Py.occurs c (User_str u) = false.
Proof.
  intros Hnum Hcomma Hn He. unfold User_str.
  rewrite !occurs_app, (str_of_int_occurs _ _ Hnum), Hn, He.
  cbn [Py.occurs]. now rewrite Hcomma.
Qed.

Lemma split_User_str u :
  Py.occurs "," (name u) = false -> Py.occurs "," (email u) = false ->
  Py.split "," (User_str u) = [Py.str_of_int (id u); name u; email u].
Proof.
  intros Hn He. unfold User_str.
  change ("," ++ name u ++ "," ++ email u)
    with (String "," (name u ++ String "," (email u))).
  rewrite split_app, split_app, split_absent; auto.
  apply str_of_int_occurs. intros x Hx. now apply numeric_spec in Hx.
Qed.

Lemma strip_User_line u :
  Py.rstrip (email u) = email u ->
  Py.strip (User_str u ++ String Py.LF "") = User_str u.
Proof.
  intros He. unfold Py.strip.
  assert (Hl : Py.lstrip (User_str u ++ String Py.LF "")
               = User_str u ++ String Py.LF "").
  { unfold User_str.
    pose proof (str_of_int_nonempty (id u)) as Hne.
    pose proof (str_of_int_numeric (id u)) as Hnum.
    destruct (Py.str_of_int (id u)) as [|c d]; [congruence|].
    simpl in Hnum. apply andb_true_iff in Hnum as [Hc _].
    apply numeric_spec in Hc as [Hc _]. simpl. now rewrite Hc. }
  rewrite Hl, rstrip_app_space by reflexivity.
  assert (Hc : Py.rstrip (String "," (email u)) = String "," (email u)).
  { simpl. rewrite He. now destruct (email u). }
  assert (Heq : User_str u
                = (Py.str_of_int (id u) ++ String "," (name u))
                  ++ String "," (email u)).
  { unfold User_str. rewrite append_assoc. reflexivity. }
  rewrite Heq, rstrip_app, Hc; [reflexivity|].
  rewrite Hc. discriminate.
Qed.

Lemma load_line_User_str us u :
  storable u = true ->
  load_line us (User_str u ++ String Py.LF "") = (us ++ [u])%list.
Proof.
  intros H.
  destruct (storable_spec u H) as ((Hn & _ & _) & (He & _ & _) & Hr).
  rewrite load_line_spec. unfold malformed, user_of_line, line_parts.
  rewrite strip_User_line, split_User_str by assumption.
  cbn [List.length nth Nat.eqb negb orb]. rewrite int_str_of_int.
  destruct u; reflexivity.
Qed.

Lemma fold_file_text us : forall acc,
  fold_left (fun text u => text ++ User_str u ++ String Py.LF "") us acc
  = acc ++ file_text us.
Proof.
  unfold file_text.
  induction us as [|u us IH]; intros acc; simpl.
  - now rewrite append_nil_r.
  - rewrite IH, (IH (User_str u ++ String Py.LF "")).
    now rewrite append_assoc.
Qed.

Lemma file_text_cons u us :
  file_text (u :: us) = User_str u ++ String Py.LF (file_text us).
Proof.
  unfold file_text at 1. simpl. rewrite fold_file_text.
  now rewrite append_assoc.
Qed.

Lemma storable_User_str u :
  storable u = true ->
  Py.occurs Py.LF (User_str u) = false /\ Py.occurs Py.CR (User_str u) = false.
Proof.
  intros H.
  destruct (storable_spec u H) as ((_ & Hn & Hn') & (_ & He & He') & _).
  split; apply User_str_occurs; try assumption; try reflexivity;
    intros x Hx; now apply numeric_spec in Hx.
Qed.

Lemma file_text_lines us :
  forallb storable us = true ->
  Py.iter_lines (Py.universal_newlines (file_text us))
  = map (fun u => User_str u ++ String Py.LF "") us.
Proof.
  intros H.
  assert (Hcr : Py.occurs Py.CR (file_text us) = false).
  { induction us as [|u us IH]; [reflexivity|].
    simpl in H. apply andb_true_iff in H as [Hu Hus].
    rewrite file_text_cons, occurs_app.
    destruct (storable_User_str u Hu) as [_ ->]. simpl. now apply IH. }
  rewrite universal_newlines_id by exact Hcr. clear Hcr.
  induction us as [|u us IH]; [reflexivity|].
  simpl in H. apply andb_true_iff in H as [Hu Hus].
  rewrite file_text_cons, iter_lines_app, (IH Hus); [reflexivity|].
  now destruct (storable_User_str u Hu).
Qed.

Lemma fold_load_line_User_str us : forall acc,
  forallb storable us = true ->
  fold_left load_line (map (fun u => User_str u ++ String Py.LF "") us) acc
  = (acc ++ us)%list.
Proof.
  induction us as [|u us IH]; intros acc H; simpl.
  - now rewrite app_nil_r.
  - simpl in H. apply andb_true_iff in H as [Hu Hus].
    rewrite load_line_User_str, IH, <- app_assoc by assumption. reflexivity.
Qed.

(** C9, as amended.  Saving and then loading restores the list of users, in
    order, when no name and no email holds a comma or a line break (LF or
    CR) and no email ends in white space; with a comma or a newline in a
    field the list read back can differ. *)
Theorem save_then_load_restores_storable_users :
  (forall st,
      forallb storable (users st) = true ->
      load_users_from_file (save_users_to_file st)
      = {| users := users st; file := Some (file_text (users st)) |})
  /\ (let st := {| users := [ {| id := 1; name := "a,b"; email := "e" |} ];
                   file := None |} in
      users (load_users_from_file (save_users_to_file st)) = [])
  /\ (let st := {| users := [ {| id := 1; name := String "a" (String Py.LF "b");
                                 email := "e" |} ];
                   file := None |} in
      users (load_users_from_file (save_users_to_file st)) = []).
Proof.
  split; [|split; reflexivity].
  intros st H. unfold load_users_from_file, save_users_to_file. simpl.
  now rewrite file_text_lines, fold_load_line_User_str.
Qed.

Lemma save_then_load_restores_storable_users_witness :
  load_users_from_file
    (save_users_to_file
       {| users := [ {| id := 1; name := "Alice Doe"; email := "alice@x.com" |};
                     {| id := -7; name := " bob "; email := "" |} ];
          file := None |})
  = {| users := [ {| id := 1; name := "Alice Doe"; email := "alice@x.com" |};
                  {| id := -7; name := " bob "; email := "" |} ];
       file := Some (file_text
                       [ {| id := 1; name := "Alice Doe";
                            email := "alice@x.com" |};
                         {| id := -7; name := " bob "; email := "" |} ]) |}.
Proof.
  apply (proj1 save_then_load_restores_storable_users
           {| users := [ {| id := 1; name := "Alice Doe";
                            email := "alice@x.com" |};
                         {| id := -7; name := " bob "; email := "" |} ];
              file := None |}).
  reflexivity.
Defined.

(** C9, as stated, fails: a user whose name and email hold no comma and no
    newline, but whose email ends in a blank, is read back without the
    blank. *)
Lemma save_then_load_drops_trailing_blank :
  let st := {| users := [ {| id := 1; name := "a"; email := "b " |} ];
               file := None |} in
  forallb (fun u => plain (name u) && plain (email u)) (users st) = true
  /\ users (load_users_from_file (save_users_to_file st))
     = [ {| id := 1; name := "a"; email := "b" |} ]
  /\ users (load_users_from_file (save_users_to_file st)) <> users st.
Proof.
  repeat split. discriminate.
Qed.

(** C8.  Every add that succeeds gives the new user the number of stored
    users plus one as id and appends it; after loading a file whose ids are
    not 1..N, that id can be one a stored user already has. *)
Theorem handle_add_user_id_is_count_plus_one :
  (forall name email st,
      status (snd (handle_add_user name email st)) = 200 ->
      exists name' email',
        name = Some name' /\ email = Some email'
        /\ users (fst (handle_add_user name email st))
           = (users st
              ++ [ {| id := Z.of_nat (List.length (users st)) + 1;
                      name := name'; email := email' |} ])%list)
  /\ (let st := load_users_from_file
                  {| users := []; file := Some "1,ann,ann@x.com
3,cid,cid@x.com
" |} in
      let st' := fst (handle_add_user (Some "dee") (Some "dee@x.com") st) in
      map id (users st) = [1; 3] /\ map id (users st') = [1; 3; 3]
      /\ NoDup (map id (users st)) /\ ~ NoDup (map id (users st'))).
Proof.
  split.
  - intros name email st. unfold handle_add_user.
    destruct name as [name'|], email as [email'|]; try discriminate.
    destruct (negb (Py.truthy (Some name')) || negb (Py.truthy (Some email')));
      [discriminate|].
    intros _. exists name', email'. repeat split.
  - cbv zeta. split; [reflexivity|]. split; [reflexivity|].
    change (NoDup [1; 3] /\ ~ NoDup [1; 3; 3]). split.
    + repeat constructor; simpl; intuition discriminate.
    + intros H. inversion H as [|? ? _ H']. inversion H' as [|? ? Hin _].
      apply Hin. now left.
Qed.

Lemma handle_add_user_id_is_count_plus_one_witness :
  exists name' email',
    Some "dee" = Some name' /\ Some "dee@x.com" = Some email'
    /\ users (fst (handle_add_user (Some "dee") (Some "dee@x.com")
                     {| users := [ {| id := 7; name := "g"; email := "g@x" |} ];
                        file := None |}))
       = ([ {| id := 7; name := "g"; email := "g@x" |} ]
          ++ [ {| id := Z.of_nat 1 + 1; name := name'; email := email' |} ])%list.
Proof.
  apply (proj1 handle_add_user_id_is_count_plus_one
           (Some "dee") (Some "dee@x.com")
           {| users := [ {| id := 7; name := "g"; email := "g@x" |} ];
              file := None |}).
  reflexivity.
Defined.

(** C4, where the code departs from it.  A run of the flat-file service:
    two adds on an empty store, the first with a comma in the name, then a
    restart, which skips the four-part line, then a third add.  The third
    user gets id 2, the id of the user loaded from the file. *)
Theorem flat_file_id_not_increasing :
  let st0 := load_users_from_file {| users := []; file := None |} in
  let st1 := fst (handle_add_user (Some "Doe, Jo") (Some "jo@x.com") st0) in
  let st2 := fst (handle_add_user (Some "bob") (Some "bob@x.com") st1) in
  let st3 := load_users_from_file {| users := []; file := file st2 |} in
  let st4 := fst (handle_add_user (Some "cy") (Some "cy@x.com") st3) in
  map id (users st2) = [1; 2]
  /\ users st3 = [ {| id := 2; name := "bob"; email := "bob@x.com" |} ]
  /\ users st4 = [ {| id := 2; name := "bob"; email := "bob@x.com" |};
                   {| id := 2; name := "cy"; email := "cy@x.com" |} ].
Proof. repeat split. Qed.


Lemma seq_ids_snoc n :
  map Z.of_nat (seq 1 (S n))
  = (map Z.of_nat (seq 1 n) ++ [Z.of_nat n + 1])%list.
Proof.
  rewrite seq_S, map_app. cbn [map]. do 2 f_equal. lia.
Qed.


End FlatFileFacts.

(** ** The database-backed variant *)

Section UseratorFacts.

Import Userator.

Variable validate_email : string -> option string.

Lemma handle_POST_users body file :
  handle validate_email (POST_users body) file =
  match UserCreate_of_json validate_email body with
  | inl errors =>
      ({| status := 422; body := JSON_errors errors |}, closed_on file [])
  | inr u =>
      let stmt := INSERT_INTO_users (name u) (email u) (age u) in
      if email_taken (email u) file then
        ({| status := 409;
            body := JSON_detail ("Email '" ++ email u ++ "' already exists.") |},
         closed_on file [stmt])
      else
        (match UserResponse_validate validate_email (Value (name u))
                 (Value (email u)) (optional (age u))
                 (Value (new_rowid file)) with
         | inr r => {| status := 201; body := JSON_user r |}
         | inl _ => {| status := 500; body := Internal_Server_Error |}
         end,
         closed_on (with_user u file) [stmt])
  end.
Proof.
  unfold handle, get_db_connection, try_finally, call.
  destruct (UserCreate_of_json validate_email body) as [errors|u];
    [reflexivity|].
  unfold add_user, try_except, bind, execute, connect. cbn [is_open working].
  unfold run_statement. destruct (email_taken (email u) file) eqn:E.
  - reflexivity.
  - cbn. unfold UserResponse_init.
    destruct (UserResponse_validate validate_email _ _ _ _); reflexivity.
Qed.

Lemma handle_GET_users_id i file :
  handle validate_email (GET_users_id (Int i)) file =
  (match filter (fun r => (row_id r =? i)%Z) (users file) with
   | [] => {| status := 404;
              body := JSON_detail ("User with ID " ++ Py.str_of_int i
                                   ++ " not found") |}
   | row :: _ =>
       match to_response validate_email row with
       | inr u => {| status := 200; body := JSON_user u |}
       | inl _ => {| status := 500; body := Internal_Server_Error |}
       end
   end,
   closed_on file [SELECT_FROM_users_WHERE_id i]).
Proof.
  unfold handle, get_db_connection, try_finally, call, get_user_by_id_params,
    get_user_by_id, bind, execute, connect, fetchone, model_validate,
    to_response.
  cbn [is_open working run_statement rows hd_error].
  destruct (filter _ (users file)) as [|row rest]; [reflexivity|].
  cbn [hd_error].
  destruct (UserResponse_validate validate_email _ _ _ _); reflexivity.
Qed.

Lemma get_users_params_in_range user_id skip limit :
  user_id <> NotInt ->
  in_range 0 None skip = true -> in_range 1 (Some 100) limit = true ->
  get_users_params user_id skip limit
  = inr (match user_id with Int i => Some i | _ => None end,
         match skip with Int s => s | _ => 0 end,
         match limit with Int l => l | _ => 10 end).
Proof.
  unfold get_users_params, Query, in_range. intros Hu Hs Hl.
  destruct user_id as [| |i]; [|congruence|];
    destruct skip as [| |s]; try discriminate;
    destruct limit as [| |l]; try discriminate;
    repeat match goal with
           | H : _ && _ = true |- _ => apply andb_true_iff in H as [? ?]
           | H : (_ <=? _)%Z = true |- _ => apply Z.leb_le in H
           end;
    repeat match goal with
           | |- context [(?a <? ?b)%Z] =>
               destruct (Z.ltb_spec a b); try lia
           end;
    reflexivity.
Qed.

Lemma handle_GET_users_with_id i skip limit file :
  in_range 0 None skip = true -> in_range 1 (Some 100) limit = true ->
  handle validate_email (GET_users (Int i) skip limit) file =
  (in_a_list (fst (handle validate_email (GET_users_id (Int i)) file)),
   snd (handle validate_email (GET_users_id (Int i)) file)).
Proof.
  intros Hs Hl. rewrite handle_GET_users_id.
  unfold handle, get_db_connection, try_finally, call.
  rewrite get_users_params_in_range by (assumption || discriminate).
  unfold get_users, bind, execute, connect, fetchone, model_validate,
    to_response.
  cbn [is_open working run_statement rows hd_error fst snd].
  destruct (filter _ (users file)) as [|row rest]; [reflexivity|].
  cbn [hd_error].
  destruct (UserResponse_validate validate_email _ _ _ _); reflexivity.
Qed.





(** C7.  Whatever the code that runs at [yield] does, return or raise, the
    connection [get_db_connection] opened for it is closed when it is done;
    so every request, whatever its answer, leaves its connection closed,
    with no transaction open. *)
Theorem connection_is_released :
  (forall (A : Type) (request : M A) file,
      is_open (connect file) = true
      /\ get_db_connection request file
         = (fst (request (connect file)),
            snd (close (snd (request (connect file)))))
      /\ is_open (snd (get_db_connection request file)) = false)
  /\ (forall r file,
        is_open (snd (handle validate_email r file)) = false
        /\ working (snd (handle validate_email r file))
           = committed (snd (handle validate_email r file))).
Proof.
  assert (H : forall (A : Type) (request : M A) file,
             get_db_connection request file
             = (fst (request (connect file)),
                snd (close (snd (request (connect file)))))).
  { intros A request file. unfold get_db_connection, try_finally.
    destruct (request (connect file)) as [o db]. reflexivity. }
  split.
  - intros A request file. split; [reflexivity|]. split; [apply H|].
    rewrite H. reflexivity.
  - intros r file. unfold handle.
    destruct r; rewrite H; split; reflexivity.
Qed.

(** *** Primary key and lookups *)

Lemma distinct_NoDup l : distinct l = true <-> NoDup l.
Proof.
  induction l as [|x l IH]; simpl.
  - split; [constructor | reflexivity].
  - rewrite andb_true_iff, negb_true_iff, IH. split.
    + intros [Hx Hl]. constructor; [|assumption].
      intros Hin. apply not_true_iff_false in Hx. apply Hx.
      apply existsb_exists. exists x. split; [assumption|apply Z.eqb_refl].
    + intros H. inversion H as [|? ? Hnin Hl]; subst. split; [|assumption].
      apply not_true_iff_false. intros Hex.
      apply existsb_exists in Hex as (y & Hy & Hxy).
      apply Z.eqb_eq in Hxy. now subst.
Qed.

Lemma filter_id_absent rows i :
  filter (fun r => (row_id r =? i)%Z) rows = []
  <-> (forall row, In row rows -> row_id row <> i).
Proof.
  induction rows as [|r rows IH]; simpl.
  - split; [intros _ row [] | reflexivity].
  - destruct (Z.eqb_spec (row_id r) i) as [E|E].
    + split; [discriminate|]. intros H. exfalso. now apply (H r); [left|].
    + rewrite IH. split.
      * intros H row [<-|Hin]; auto.
      * intros H row Hin. apply H. now right.
Qed.





(** *** The combined query *)

Lemma handle_GET_users_out_of_range user_id skip limit file :
  in_range 0 None skip = false \/ in_range 1 (Some 100) limit = false ->
  exists e errors,
    handle validate_email (GET_users user_id skip limit) file
    = ({| status := 422; body := JSON_errors (e :: errors) |},
       closed_on file []).
Proof.
  intros H.
  assert (Hp : exists e errors,
             get_users_params user_id skip limit = inl (e :: errors)).
  { unfold get_users_params, Query, in_range in *.
    destruct user_id as [| |i]; destruct skip as [| |s];
      destruct limit as [| |l];
      repeat match goal with
             | |- context [(?a <? ?b)%Z] => destruct (Z.ltb_spec a b)
             end;
      cbn; eauto;
      exfalso; destruct H as [H|H]; try discriminate H;
      repeat match goal with
             | X : _ && _ = false |- _ => apply andb_false_iff in X as [X|X]
             | X : (_ <=? _)%Z = false |- _ => apply Z.leb_gt in X
             end; try discriminate; lia. }
  destruct Hp as (e & errors & Hp). exists e, errors.
  unfold handle, get_db_connection, try_finally, call. now rewrite Hp.
Qed.

(** C3, as amended.  [get_users] is [getOrList]: given an id it behaves as
    [getById] wrapped in a single-element list, whatever [skip] and [limit]
    are, and without one as [list].  So for every database file and id, and
    every [skip] and [limit] within their declared ranges (at least 0; 1 to
    100) or left out, [GET /users/] with [user_id] answers as
    [GET /users/{id}] does, the user in a list of one or the same 404, and
    without [user_id] it answers with [list(skip, limit)].  A request whose
    [skip] or [limit] is out of range is answered 422 before any lookup,
    with or without [user_id]. *)
Theorem get_users_is_getOrList :
  (forall user_id skip limit db,
      get_users validate_email user_id skip limit db
      = getOrList validate_email user_id skip limit db)
  /\ (forall file i skip limit,
        in_range 0 None skip = true -> in_range 1 (Some 100) limit = true ->
        handle validate_email (GET_users (Int i) skip limit) file
        = (in_a_list (fst (handle validate_email (GET_users_id (Int i)) file)),
           snd (handle validate_email (GET_users_id (Int i)) file)))
  /\ (forall file skip limit,
        in_range 0 None skip = true -> in_range 1 (Some 100) limit = true ->
        handle validate_email (GET_users Absent skip limit) file
        = (response 200 JSON_users
             (fst (get_db_connection
                     (list_users validate_email
                        match skip with Int s => s | _ => 0 end
                        match limit with Int l => l | _ => 10 end) file)),
           snd (get_db_connection
                  (list_users validate_email
                     match skip with Int s => s | _ => 0 end
                     match limit with Int l => l | _ => 10 end) file)))
  /\ (forall file user_id skip limit,
        in_range 0 None skip = false \/ in_range 1 (Some 100) limit = false ->
        exists e errors,
          handle validate_email (GET_users user_id skip limit) file
          = ({| status := 422; body := JSON_errors (e :: errors) |},
             closed_on file [])).
Proof.
  split; [|split; [|split]].
  - intros [i|] skip limit db; [|reflexivity].
    unfold get_users, getOrList, getById, get_user_by_id, bind.
    destruct (execute (SELECT_FROM_users_WHERE_id i) db) as [[cursor|e] db'];
      [|reflexivity].
    destruct (fetchone cursor); reflexivity.
  - intros file i skip limit. apply handle_GET_users_with_id.
  - intros file skip limit Hs Hl.
    unfold handle, call.
    rewrite get_users_params_in_range by (assumption || discriminate).
    unfold list_users.
    destruct (get_db_connection _ file) as [o db]. reflexivity.
  - intros file user_id skip limit. apply handle_GET_users_out_of_range.
Qed.

(** *** Pages *)









Lemma for_each_model_validate rows db :
  for_each (model_validate validate_email) rows db
  = (match to_responses validate_email rows with
     | inr us => Returned us
     | inl errors => Raised (ValidationError errors)
     end, db).
Proof.
  revert db. induction rows as [|row rows IH]; intros db; [reflexivity|].
  cbn [for_each to_responses]. unfold bind at 1.
  unfold model_validate, to_response.
  destruct (UserResponse_validate validate_email _ _ _ _) as [errors|u];
    [reflexivity|].
  unfold ret at 1. cbv beta iota. unfold bind. rewrite IH.
  destruct (to_responses validate_email rows); reflexivity.
Qed.




(** *** Ids given by [AUTOINCREMENT] *)

Lemma fold_max_bounds l : forall x,
  x <= fold_left Z.max l x /\ Forall (fun y => y <= fold_left Z.max l x) l.
Proof.
  induction l as [|y l IH]; intros x; simpl.
  - split; [lia|constructor].
  - destruct (IH (Z.max x y)) as [H1 H2]. split; [lia|].
    constructor; [lia|assumption].
Qed.

Lemma new_rowid_gt file row :
  In row (users file) -> row_id row < new_rowid file.
Proof.
  unfold new_rowid. destruct (users file) as [|r rs]; [intros []|].
  destruct (fold_max_bounds (map row_id rs) (row_id r)) as [H1 H2].
  intros [<-|Hin]; [lia|].
  rewrite Forall_forall in H2.
  specialize (H2 (row_id row) (in_map row_id _ _ Hin)). lia.
Qed.

Lemma new_rowid_gt_sequence file : sqlite_sequence file < new_rowid file.
Proof. unfold new_rowid. lia. Qed.



(** *** Inserting users and listing them *)










(** *** What a request does to the file *)

Lemma UserResponse_validate_id n e a i u :
  UserResponse_validate validate_email n e a (Value i) = inr u -> id u = i.
Proof.
  unfold UserResponse_validate, validate_id.
  destruct (UserBase_validate validate_email n e a); intros H;
    inversion H; reflexivity.
Qed.

(** X1.  In the database-backed variant the id of a created user is greater than
    every id stored before and than every id the table's counter remembers,
    whatever the file held; the row of the validated request is appended
    under that id. *)
Theorem add_user_id_exceeds_stored_ids file body u :
  fst (handle validate_email (POST_users body) file)
  = {| status := 201; body := JSON_user u |} ->
  (forall row, In row (users file) -> row_id row < id u)
  /\ sqlite_sequence file < id u
  /\ exists user_in,
       UserCreate_of_json validate_email body = inr user_in
       /\ file_after validate_email (POST_users body) file
          = {| users := (users file
                         ++ [ {| row_id := id u; row_name := name user_in;
                                 row_email := email user_in;
                                 row_age := age user_in |} ])%list;
               sqlite_sequence := id u |}.
Proof.
  unfold file_after. rewrite handle_POST_users.
  destruct (UserCreate_of_json validate_email body) as [errors|u0];
    [discriminate|].
  cbv zeta. destruct (email_taken (email u0) file); [discriminate|].
  cbn [fst snd committed closed_on].
  destruct (UserResponse_validate validate_email _ _ _ _) as [|r] eqn:E;
    [discriminate|].
  intros H. inversion H; subst r. clear H.
  rewrite (UserResponse_validate_id _ _ _ _ _ E). split; [|split].
  - apply new_rowid_gt.
  - apply new_rowid_gt_sequence.
  - exists u0. split; reflexivity.
Qed.

Lemma get_users_keeps_file user_id skip limit file :
  committed (snd (get_users validate_email user_id skip limit (connect file)))
  = file.
Proof.
  unfold get_users, bind, execute, connect.
  destruct user_id as [i|]; cbn [is_open working run_statement].
  - unfold fetchone. cbn [rows].
    destruct (hd_error _) as [row|]; [|reflexivity].
    unfold model_validate.
    destruct (UserResponse_validate validate_email _ _ _ _); reflexivity.
  - rewrite for_each_model_validate. reflexivity.
Qed.

Lemma GET_keeps_file file :
  (forall user_id skip limit,
      file_after validate_email (GET_users user_id skip limit) file = file)
  /\ (forall user_id_path,
        file_after validate_email (GET_users_id user_id_path) file = file).
Proof.
  split.
  - intros user_id skip limit.
    unfold file_after, handle, get_db_connection, try_finally, call.
    destruct (get_users_params user_id skip limit) as [errors|[[u s] l]];
      [reflexivity|].
    pose proof (get_users_keeps_file u s l file) as H.
    destruct (get_users validate_email u s l (connect file)) as [o db].
    exact H.
  - intros [| |i]; try reflexivity.
    unfold file_after. now rewrite handle_GET_users_id.
Qed.


(** X2.  When validating an email a second time gives it back, every request
    keeps the invariants of the data model: ids stay a primary key and every
    row stays a valid user. *)
Theorem requests_preserve_well_formed r file :
  (forall s e, validate_email s = Some e -> validate_email e = Some e) ->
  well_formed validate_email file = true ->
  well_formed validate_email (file_after validate_email r file) = true.
Proof.
  intros Hidem Hwf. destruct r as [body|user_id skip limit|user_id_path].
  - unfold file_after. rewrite handle_POST_users.
    destruct (UserCreate_of_json validate_email body) as [errors|u] eqn:Eu;
      [exact Hwf|].
    cbv zeta. destruct (email_taken (email u) file); [exact Hwf|].
    cbn [snd committed closed_on].
    unfold well_formed in *. apply andb_true_iff in Hwf as [Hpk Hrows].
    unfold with_user. cbn [users]. apply andb_true_iff. split.
    + apply distinct_NoDup. apply distinct_NoDup in Hpk.
      rewrite map_app. cbn [map row_id].
      apply NoDup_app_remove_l with (l := []). cbn.
      eapply Permutation_NoDup; [apply Permutation_cons_append|].
      constructor; [|assumption].
      intros Hin. apply in_map_iff in Hin as (row & E & Hrow).
      pose proof (new_rowid_gt file row Hrow). lia.
    + rewrite forallb_app, Hrows. cbn [forallb]. rewrite andb_true_r.
      unfold valid_row, to_response. cbn [row_name row_email row_age row_id].
      revert Eu. unfold UserCreate_of_json, UserBase_validate, validate_name,
        validate_email_field, validate_age.
      destruct body as [n e a]. cbn [json_name json_email json_age].
      destruct n as [| | |n]; destruct e as [| | |e];
        try destruct (validate_email e) as [e'|] eqn:Ee;
        destruct a as [| | |a]; try destruct (0 <=? a)%Z eqn:Ea;
        cbn; intros H; inversion H; subst; clear H;
        unfold UserResponse_validate, UserBase_validate, validate_name,
          validate_email_field, validate_age, validate_id, optional;
        cbn [name email age]; rewrite (Hidem _ _ Ee), ?Ea; reflexivity.
  - now rewrite (proj1 (GET_keeps_file file)).
  - now rewrite (proj2 (GET_keeps_file file)).
Qed.

End UseratorFacts.

(** ** The two services on concrete requests *)

Section Runs.

Import Userator.




Lemma get_users_is_getOrList_witness :
  handle simple_email (GET_users (Int 2) (Int 5) (Int 7)) sample_file
  = (in_a_list (fst (handle simple_email (GET_users_id (Int 2)) sample_file)),
     snd (handle simple_email (GET_users_id (Int 2)) sample_file)).
Proof.
  apply (proj1 (proj2 (get_users_is_getOrList simple_email))
           sample_file 2 (Int 5) (Int 7));
    reflexivity.
Defined.

(** C3, as stated, fails: with [user_id] supplied the answer still depends
    on [limit].  User 2 is stored and [GET /users/2] answers with it, but
    [GET /users/?user_id=2&limit=0] is answered 422. *)
Lemma get_users_checks_limit_before_lookup :
  fst (handle simple_email (GET_users_id (Int 2)) sample_file)
  = {| status := 200;
       body := JSON_user {| base := {| name := "Bob";
                                       email := "bob@example.com";
                                       age := Some 32 |};
                            id := 2 |} |}
  /\ fst (handle simple_email (GET_users (Int 2) Absent (Int 7)) sample_file)
     = {| status := 200;
          body := JSON_users [ {| base := {| name := "Bob";
                                             email := "bob@example.com";
                                             age := Some 32 |};
                                  id := 2 |} ] |}
  /\ fst (handle simple_email (GET_users (Int 2) Absent (Int 0)) sample_file)
     = {| status := 422;
          body := JSON_errors [ {| loc := "limit";
                                   type := "greater_than_equal" |} ] |}.
Proof. repeat split. Qed.




Lemma add_user_id_exceeds_stored_ids_witness :
  (forall row, In row (users sample_file) -> row_id row < 3)
  /\ sqlite_sequence sample_file < 3
  /\ exists user_in,
       UserCreate_of_json simple_email first_user = inr user_in
       /\ file_after simple_email (POST_users first_user) sample_file
          = {| users := (users sample_file
                         ++ [ {| row_id := 3; row_name := name user_in;
                                 row_email := email user_in;
                                 row_age := age user_in |} ])%list;
               sqlite_sequence := 3 |}.
Proof.
  apply (add_user_id_exceeds_stored_ids simple_email sample_file first_user
           {| base := {| name := "First User";
                         email := "duplicate@example.com"; age := Some 25 |};
              id := 3 |}).
  reflexivity.
Defined.


Lemma simple_email_idempotent s e :
  simple_email s = Some e -> simple_email e = Some e.
Proof.
  intros H. assert (e = s); [|now subst].
  unfold simple_email in H.
  destruct (Py.split "@" s) as [|l [|d [|? ?]]]; try discriminate.
  destruct (_ && _); now inversion H.
Qed.

Lemma requests_preserve_well_formed_witness :
  well_formed simple_email
    (file_after simple_email (POST_users first_user) sample_file) = true.
Proof.
  apply (requests_preserve_well_formed simple_email (POST_users first_user)
           sample_file simple_email_idempotent).
  reflexivity.
Defined.

(** The three ways out of a request, each with its connection closed:
    created, rejected by validation, rejected by the table. *)
Example exit_paths :
  let file1 := file_after simple_email (POST_users first_user)
                 (create_db_and_tables None) in
  let created := handle simple_email (POST_users first_user)
                   (create_db_and_tables None) in
  let invalid := handle simple_email (POST_users negative_age) file1 in
  let conflict := handle simple_email (POST_users second_user) file1 in
  (status (fst created), is_open (snd created)) = (201, false)
  /\ (status (fst invalid), is_open (snd invalid)) = (422, false)
  /\ (status (fst conflict), is_open (snd conflict)) = (409, false)
  /\ executed (snd invalid) = []
  /\ committed (snd conflict) = file1.
Proof. repeat split. Qed.

(** *** The tests of [test_api1.py], on the model *)

Example test_add_user_positive :
  handle simple_email
    (POST_users {| json_name := Value "Test User";
                   json_email := Value "test@example.com";
                   json_age := Value 30 |})
    (create_db_and_tables None)
  = ({| status := 201;
        body := JSON_user {| base := {| name := "Test User";
                                        email := "test@example.com";
                                        age := Some 30 |};
                             id := 1 |} |},
     closed_on {| users := [ {| row_id := 1; row_name := "Test User";
                                row_email := "test@example.com";
                                row_age := Some 30 |} ];
                  sqlite_sequence := 1 |}
       [INSERT_INTO_users "Test User" "test@example.com" (Some 30)]).
Proof. reflexivity. Qed.

Example test_add_user_duplicate_email :
  let r := fst (handle simple_email (POST_users second_user)
                  (file_after simple_email (POST_users first_user)
                     (create_db_and_tables None))) in
  status r = 409 /\ detail_has "already exists" r = true.
Proof. split; reflexivity. Qed.

Example test_add_user_missing_name :
  let r := fst (handle simple_email
                  (POST_users {| json_name := Missing;
                                 json_email := Value "noname@example.com";
                                 json_age := Value 25 |})
                  (create_db_and_tables None)) in
  status r = 422 /\ has_error "name" "missing" r = true.
Proof. split; reflexivity. Qed.

Example test_add_user_missing_email :
  let r := fst (handle simple_email
                  (POST_users {| json_name := Value "No Email User";
                                 json_email := Missing;
                                 json_age := Value 25 |})
                  (create_db_and_tables None)) in
  status r = 422 /\ has_error "email" "missing" r = true.
Proof. split; reflexivity. Qed.

Example test_add_user_invalid_email_format :
  let r := fst (handle simple_email
                  (POST_users {| json_name := Value "Bad Email";
                                 json_email := Value "not-an-email";
                                 json_age := Value 30 |})
                  (create_db_and_tables None)) in
  status r = 422 /\ has_error "email" "" r = true.
Proof. split; reflexivity. Qed.

Example test_add_user_invalid_age_type :
  let r := fst (handle simple_email
                  (POST_users {| json_name := Value "Bad Age Type";
                                 json_email := Value "badage@example.com";
                                 json_age := WrongType |})
                  (create_db_and_tables None)) in
  status r = 422 /\ has_error "age" "int_parsing" r = true.
Proof. split; reflexivity. Qed.

Example test_add_user_negative_age :
  let r := fst (handle simple_email
                  (POST_users {| json_name := Value "Negative Age";
                                 json_email := Value "negage@example.com";
                                 json_age := Value (-5) |})
                  (create_db_and_tables None)) in
  status r = 422 /\ has_error "age" "greater_than_equal" r = true.
Proof. split; reflexivity. Qed.

Example test_get_all_users :
  fst (handle simple_email (GET_users Absent Absent Absent) sample_file)
  = {| status := 200;
       body := JSON_users
                 [ {| base := {| name := "Alice"; email := "alice@example.com";
                                 age := Some 28 |}; id := 1 |};
                   {| base := {| name := "Bob"; email := "bob@example.com";
                                 age := Some 32 |}; id := 2 |} ] |}.
Proof. reflexivity. Qed.

Example test_get_specific_user_by_id_path :
  fst (handle simple_email (GET_users_id (Int 1)) sample_file)
  = {| status := 200;
       body := JSON_user {| base := {| name := "Alice";
                                       email := "alice@example.com";
                                       age := Some 28 |}; id := 1 |} |}.
Proof. reflexivity. Qed.

Example test_get_specific_user_by_id_query :
  fst (handle simple_email (GET_users (Int 2) Absent Absent) sample_file)
  = {| status := 200;
       body := JSON_users [ {| base := {| name := "Bob";
                                          email := "bob@example.com";
                                          age := Some 32 |}; id := 2 |} ] |}.
Proof. reflexivity. Qed.

Example test_get_user_not_found_path :
  let r := fst (handle simple_email (GET_users_id (Int 99999))
                  (create_db_and_tables None)) in
  status r = 404 /\ detail_has "not found" r = true.
Proof. split; reflexivity. Qed.

Example test_get_user_not_found_query :
  let r := fst (handle simple_email (GET_users (Int 99999) Absent Absent)
                  (create_db_and_tables None)) in
  status r = 404 /\ detail_has "not found" r = true.
Proof. split; reflexivity. Qed.

Example test_get_user_invalid_id_path :
  let r := fst (handle simple_email (GET_users_id NotInt)
                  (create_db_and_tables None)) in
  status r = 422 /\ has_error "user_id_path" "int_parsing" r = true.
Proof. split; reflexivity. Qed.

Example test_get_user_invalid_id_query :
  let r := fst (handle simple_email (GET_users NotInt Absent Absent)
                  (create_db_and_tables None)) in
  status r = 422 /\ has_error "user_id" "int_parsing" r = true.
Proof. split; reflexivity. Qed.

End Runs.

(** ** More on the flat-file variant *)

Section FlatFileMore.

Import FlatFile.

(** *** The listing *)

Lemma fold_listing us : forall acc,
  fold_left
    (fun response_text u =>
       response_text ++ "ID: " ++ Py.str_of_int (id u) ++ ", Name: " ++ name u
       ++ ", Email: " ++ email u ++ String Py.LF "")
    us acc
  = acc ++ String.concat "" (map listing_line us).
Proof.
  induction us as [|u us IH]; intros acc; cbn [fold_left map].
  - cbn. now rewrite append_nil_r.
  - rewrite IH. destruct us as [|u' us'].
    + cbn. now rewrite append_nil_r.
    + cbn [map String.concat]. rewrite append_assoc.
      f_equal.
Qed.

Lemma concat_listing_snoc us u :
  String.concat "" (map listing_line (us ++ [u])%list)
  = String.concat "" (map listing_line us) ++ listing_line u.
Proof.
  induction us as [|a us IH]; [reflexivity|].
  cbn [app map]. destruct us as [|b us'].
  - reflexivity.
  - cbn [app map String.concat] in *. rewrite IH.
    now rewrite !append_assoc.
Qed.

(** X5.  [GET /users] answers 200 with the header line followed by one line
    per stored user, in the order of the list; and after an add that
    succeeded the listing is the listing before it followed by the line of
    the new user, whose id is the number of users before plus one. *)
Theorem handle_get_users_lists_users_in_order :
  (forall st,
      handle_get_users st
      = {| text := "Users:" ++ String Py.LF ""
                   ++ String.concat "" (map listing_line (users st));
           status := 200 |})
  /\ (forall name email st,
        status (snd (handle_add_user (Some name) (Some email) st)) = 200 ->
        text (handle_get_users
                (fst (handle_add_user (Some name) (Some email) st)))
        = text (handle_get_users st)
          ++ listing_line
               {| id := Z.of_nat (List.length (users st)) + 1;
                  name := name; email := email |}).
Proof.
  assert (H : forall st,
             handle_get_users st
             = {| text := "Users:" ++ String Py.LF ""
                          ++ String.concat "" (map listing_line (users st));
                  status := 200 |}).
  { intros st. unfold handle_get_users. now rewrite fold_listing. }
  split; [exact H|].
  intros name email st. rewrite !H. unfold handle_add_user.
  destruct (negb (Py.truthy (Some name)) || negb (Py.truthy (Some email)));
    [discriminate|].
  intros _. cbn [fst save_users_to_file users text].
  rewrite concat_listing_snoc. cbn [id FlatFile.name FlatFile.email].
  now rewrite !append_assoc.
Qed.

(** *** What an add writes *)

Lemma file_text_snoc us u :
  file_text (us ++ [u])%list = file_text us ++ User_str u ++ String Py.LF "".
Proof.
  induction us as [|a us IH].
  - cbn [app]. rewrite file_text_cons. reflexivity.
  - cbn [app]. rewrite !file_text_cons, IH.
    change (String Py.LF (file_text us ++ User_str u ++ String Py.LF ""))
      with (String Py.LF "" ++ file_text us ++ User_str u ++ String Py.LF "").
    change (String Py.LF (file_text us))
      with (String Py.LF "" ++ file_text us).
    now rewrite !append_assoc.
Qed.

(** X6.  An add that succeeds leaves in the file exactly the lines of the
    users in memory; when the file held the lines of the users before, the
    add keeps that text and puts the line of the new user after it.  An
    add that is refused leaves the file as it was, if there was one. *)
Theorem handle_add_user_appends_line name email st :
  (status (snd (handle_add_user name email st)) = 200 ->
   file (fst (handle_add_user name email st))
   = Some (file_text (users (fst (handle_add_user name email st))))
   /\ (file st = Some (file_text (users st)) ->
       exists name' email',
         name = Some name' /\ email = Some email'
         /\ file (fst (handle_add_user name email st))
            = Some (file_text (users st)
                    ++ User_str {| id := Z.of_nat (List.length (users st)) + 1;
                                   name := name'; email := email' |}
                    ++ String Py.LF "")))
  /\ (status (snd (handle_add_user name email st)) <> 200 ->
      fst (handle_add_user name email st) = st).
Proof.
  unfold handle_add_user.
  destruct name as [name'|], email as [email'|];
    try (split; [discriminate|reflexivity]).
  destruct (negb (Py.truthy (Some name')) || negb (Py.truthy (Some email')));
    [split; [discriminate|reflexivity]|].
  cbn [fst snd status save_users_to_file users file]. split.
  - intros _. split; [reflexivity|].
    intros _. exists name', email'. now rewrite file_text_snoc.
  - congruence.
Qed.

(** *** Reading back what was saved *)

Lemma occurs_rstrip c s : Py.occurs c (Py.rstrip s) = true -> Py.occurs c s = true.
Proof.
  induction s as [|x s IH]; cbn [Py.rstrip Py.occurs]; [discriminate|].
  destruct (Py.rstrip s) as [|y r].
  - destruct (Py.isspace x); cbn [Py.occurs]; [discriminate|].
    rewrite orb_false_r. intros ->. reflexivity.
  - cbn [Py.occurs] in *. intros H. apply orb_true_iff in H as [->|H];
      [reflexivity|]. rewrite (IH H). apply orb_true_r.
Qed.

Lemma occurs_lstrip c s : Py.occurs c (Py.lstrip s) = true -> Py.occurs c s = true.
Proof.
  induction s as [|x s IH]; cbn [Py.lstrip Py.occurs]; [discriminate|].
  destruct (Py.isspace x); [|exact (fun H => H)].
  intros H. rewrite (IH H). apply orb_true_r.
Qed.

Lemma occurs_strip c s : Py.occurs c (Py.strip s) = true -> Py.occurs c s = true.
Proof. intros H. now apply occurs_lstrip, occurs_rstrip. Qed.

Lemma not_occurs_rstrip c s :
  Py.occurs c s = false -> Py.occurs c (Py.rstrip s) = false.
Proof.
  intros H. destruct (Py.occurs c (Py.rstrip s)) eqn:E; [|reflexivity].
  apply occurs_rstrip in E. congruence.
Qed.

Lemma count_app c a b : Py.count c (a ++ b) = (Py.count c a + Py.count c b)%nat.
Proof.
  induction a as [|x a IH]; cbn [append Py.count]; [reflexivity|].
  rewrite IH. lia.
Qed.

Lemma count_occurs c s : Py.occurs c s = true -> (0 < Py.count c s)%nat.
Proof.
  induction s as [|x s IH]; cbn [Py.occurs Py.count]; [discriminate|].
  destruct (Ascii.eqb x c); [lia|]. intros H. apply IH in H. lia.
Qed.

Lemma length_split sep s :
  List.length (Py.split sep s) = S (Py.count sep s).
Proof.
  induction s as [|x s IH]; cbn [Py.split Py.count]; [reflexivity|].
  destruct (Ascii.eqb x sep).
  - cbn [List.length]. now rewrite IH.
  - destruct (Py.split sep s); cbn [List.length] in *; lia.
Qed.

Lemma count_rstrip c s :
  Py.isspace c = false -> Py.count c (Py.rstrip s) = Py.count c s.
Proof.
  intros Hc. induction s as [|x s IH]; cbn [Py.rstrip Py.count]; [reflexivity|].
  destruct (Py.rstrip s) as [|y r].
  - cbn [Py.count] in IH. rewrite <- IH.
    destruct (Py.isspace x) eqn:Hx; [|reflexivity].
    cbn [Py.count]. destruct (Ascii.eqb_spec x c); [congruence|reflexivity].
  - cbn [Py.count] in *. now rewrite IH.
Qed.

Lemma strip_User_line_gen u :
  Py.strip (User_str u ++ String Py.LF "") = User_str (read_back u).
Proof.
  unfold Py.strip.
  assert (Hl : Py.lstrip (User_str u ++ String Py.LF "")
               = User_str u ++ String Py.LF "").
  { unfold User_str.
    pose proof (str_of_int_nonempty (id u)) as Hne.
    pose proof (str_of_int_numeric (id u)) as Hnum.
    destruct (Py.str_of_int (id u)) as [|c d]; [congruence|].
    simpl in Hnum. apply andb_true_iff in Hnum as [Hc _].
    apply numeric_spec in Hc as [Hc _]. simpl. now rewrite Hc. }
  rewrite Hl, rstrip_app_space by reflexivity.
  assert (Hc : Py.rstrip (String "," (email u))
               = String "," (Py.rstrip (email u))).
  { cbn [Py.rstrip]. now destruct (Py.rstrip (email u)). }
  assert (Heq : forall v, User_str v
                = (Py.str_of_int (id v) ++ String "," (name v))
                  ++ String "," (email v)).
  { intros v. unfold User_str. rewrite append_assoc. reflexivity. }
  rewrite (Heq u), rstrip_app, Hc; [|rewrite Hc; discriminate].
  now rewrite (Heq (read_back u)).
Qed.

Lemma break_free_spec u :
  break_free u = true ->
  Py.occurs Py.LF (User_str u) = false /\ Py.occurs Py.CR (User_str u) = false.
Proof.
  unfold break_free. intros H.
  repeat match goal with
         | X : _ && _ = true |- _ => apply andb_true_iff in X as [? ?]
         | X : negb _ = true |- _ => apply negb_true_iff in X
         end.
  split; apply User_str_occurs; try assumption; try reflexivity;
    intros x Hx; now apply numeric_spec in Hx.
Qed.

Lemma load_line_saved us u :
  load_line us (User_str u ++ String Py.LF "")
  = if comma_free u then (us ++ [read_back u])%list else us.
Proof.
  rewrite load_line_spec. unfold malformed, user_of_line, line_parts.
  rewrite strip_User_line_gen.
  destruct (comma_free u) eqn:Hcf.
  - unfold comma_free in Hcf. apply andb_true_iff in Hcf as [Hn He].
    apply negb_true_iff in Hn, He.
    rewrite split_User_str;
      [|exact Hn|cbn [read_back email]; now apply not_occurs_rstrip].
    cbn [List.length nth Nat.eqb negb orb]. rewrite int_str_of_int.
    reflexivity.
  - assert (Hlen : (3 < List.length (Py.split "," (User_str (read_back u))))%nat).
    { rewrite length_split. unfold User_str.
      change ("," ++ name (read_back u) ++ "," ++ email (read_back u))
        with (String "," (name (read_back u)
                          ++ String "," (email (read_back u)))).
      rewrite count_app. cbn [Py.count]. rewrite count_app. cbn [Py.count].
      cbn [read_back name email]. rewrite count_rstrip by reflexivity.
      change (Ascii.eqb "," ",") with true. cbv iota.
      unfold comma_free in Hcf. apply andb_false_iff in Hcf as [H|H];
        apply negb_false_iff in H; apply count_occurs in H; lia. }
    destruct (Nat.eqb_spec (List.length (Py.split "," (User_str (read_back u)))) 3)
      as [E|E]; [lia|reflexivity].
Qed.

Lemma file_text_lines_break_free us :
  forallb break_free us = true ->
  Py.iter_lines (Py.universal_newlines (file_text us))
  = map (fun u => User_str u ++ String Py.LF "") us.
Proof.
  intros H.
  assert (Hcr : Py.occurs Py.CR (file_text us) = false).
  { induction us as [|u us IH]; [reflexivity|].
    simpl in H. apply andb_true_iff in H as [Hu Hus].
    rewrite file_text_cons, occurs_app.
    destruct (break_free_spec u Hu) as [_ ->]. simpl. now apply IH. }
  rewrite universal_newlines_id by exact Hcr. clear Hcr.
  induction us as [|u us IH]; [reflexivity|].
  simpl in H. apply andb_true_iff in H as [Hu Hus].
  rewrite file_text_cons, iter_lines_app, (IH Hus); [reflexivity|].
  now destruct (break_free_spec u Hu).
Qed.

Lemma fold_load_line_saved us : forall acc,
  fold_left load_line (map (fun u => User_str u ++ String Py.LF "") us) acc
  = (acc ++ map read_back (filter comma_free us))%list.
Proof.
  induction us as [|u us IH]; intros acc; cbn [map fold_left filter].
  - now rewrite app_nil_r.
  - rewrite load_line_saved, IH. destruct (comma_free u); [|reflexivity].
    cbn [map]. now rewrite <- app_assoc.
Qed.

(** X7.  What a restart reads back from a saved list whose names and emails
    hold no line break (LF or CR): the users with a comma in the name or
    the email are dropped, every other user comes back in its place, with
    the white space at the end of its email removed and everything else as
    it was. *)
Theorem save_then_load_reads_back st :
  forallb break_free (users st) = true ->
  users (load_users_from_file (save_users_to_file st))
  = map read_back (filter comma_free (users st)).
Proof.
  intros H. unfold load_users_from_file, save_users_to_file.
  cbn [file users].
  now rewrite file_text_lines_break_free, fold_load_line_saved.
Qed.

(** *** What the loader can produce *)

Lemma universal_newlines_no_CR s :
  Py.occurs Py.CR (Py.universal_newlines s) = false.
Proof.
  induction s as [|c s IH]; [reflexivity|].
  cbn [Py.universal_newlines].
  destruct (Ascii.eqb c Py.CR) eqn:Hc.
  - destruct s as [|c' s']; [reflexivity|].
    destruct (Ascii.eqb c' Py.LF); [exact IH|].
    cbn [Py.occurs]. now rewrite IH.
  - cbn [Py.occurs]. now rewrite Hc, IH.
Qed.

Lemma iter_lines_occurs c s l :
  In l (Py.iter_lines s) -> Py.occurs c l = true -> Py.occurs c s = true.
Proof.
  revert l. induction s as [|x s IH]; cbn [Py.iter_lines]; [intros l []|].
  intros l. destruct (Ascii.eqb x Py.LF).
  - intros [<-|Hin]; cbn [Py.occurs].
    + rewrite orb_false_r. intros ->. reflexivity.
    + intros H. rewrite (IH l Hin H). apply orb_true_r.
  - destruct (Py.iter_lines s) as [|l0 ls]; cbn [Py.occurs].
    + intros [<-|[]]. cbn [Py.occurs]. rewrite orb_false_r.
      intros ->. reflexivity.
    + intros [<-|Hin]; cbn [Py.occurs]; intros H.
      * apply orb_true_iff in H as [->|H]; [reflexivity|].
        rewrite (IH l0 (or_introl eq_refl) H). apply orb_true_r.
      * rewrite (IH l (or_intror Hin) H). apply orb_true_r.
Qed.

(** A line handed over by the iteration holds LF at its end only. *)
Lemma iter_lines_shape s l :
  In l (Py.iter_lines s) ->
  exists body,
    Py.occurs Py.LF body = false
    /\ (l = body \/ l = body ++ String Py.LF "").
Proof.
  revert l. induction s as [|x s IH]; cbn [Py.iter_lines]; [intros l []|].
  intros l. destruct (Ascii.eqb x Py.LF) eqn:Hx.
  - intros [<-|Hin]; [|now apply IH].
    exists "". split; [reflexivity|]. right.
    apply Ascii.eqb_eq in Hx. now subst x.
  - destruct (Py.iter_lines s) as [|l0 ls].
    + intros [<-|[]]. exists (String x ""). split; [|now left].
      cbn [Py.occurs]. now rewrite Hx.
    + intros [<-|Hin].
      * destruct (IH l0 (or_introl eq_refl)) as (body & Hb & [->| ->]);
          exists (String x body); cbn [Py.occurs]; rewrite Hx, Hb;
          (split; [reflexivity|]); [now left|now right].
      * apply IH. now right.
Qed.

Lemma strip_line_no_LF body :
  Py.occurs Py.LF body = false ->
  Py.occurs Py.LF (Py.strip (body ++ String Py.LF "")) = false.
Proof.
  unfold Py.strip. induction body as [|c b IH]; [reflexivity|].
  cbn [Py.occurs]. intros H. apply orb_false_iff in H as [Hc Hb].
  cbn [append Py.lstrip]. destruct (Py.isspace c); [now apply IH|].
  change (String c (b ++ String Py.LF "")) with (String c b ++ String Py.LF "").
  rewrite rstrip_app_space by reflexivity.
  apply not_occurs_rstrip. cbn [Py.occurs]. now rewrite Hc, Hb.
Qed.

Lemma split_parts_free sep s p :
  In p (Py.split sep s) -> Py.occurs sep p = false.
Proof.
  revert p. induction s as [|x s IH]; cbn [Py.split].
  - intros p [<-|[]]. reflexivity.
  - intros p. destruct (Ascii.eqb x sep) eqn:Hx.
    + intros [<-|Hin]; [reflexivity|now apply IH].
    + destruct (Py.split sep s) as [|p0 ps].
      * intros [<-|[]]. cbn [Py.occurs]. now rewrite Hx.
      * intros [<-|Hin].
        -- cbn [Py.occurs]. rewrite Hx. apply IH. now left.
        -- apply IH. now right.
Qed.

Lemma split_parts_occurs sep c s p :
  In p (Py.split sep s) -> Py.occurs c p = true -> Py.occurs c s = true.
Proof.
  revert p. induction s as [|x s IH]; cbn [Py.split].
  - intros p [<-|[]]. discriminate.
  - intros p. destruct (Ascii.eqb x sep).
    + intros [<-|Hin]; [discriminate|].
      intros H. cbn [Py.occurs]. rewrite (IH p Hin H). apply orb_true_r.
    + destruct (Py.split sep s) as [|p0 ps].
      * intros [<-|[]]. cbn [Py.occurs]. rewrite !orb_false_r.
        intros ->. reflexivity.
      * intros [<-|Hin]; cbn [Py.occurs]; intros H.
        -- apply orb_true_iff in H as [->|H]; [reflexivity|].
           rewrite (IH p0 (or_introl eq_refl) H). apply orb_true_r.
        -- rewrite (IH p (or_intror Hin) H). apply orb_true_r.
Qed.

Lemma rstrip_fixed_tail c s :
  Py.rstrip (String c s) = String c s -> Py.rstrip s = s.
Proof.
  cbn [Py.rstrip]. destruct (Py.rstrip s) as [|y r] eqn:E.
  - destruct (Py.isspace c); [discriminate|].
    intros H. inversion H. reflexivity.
  - intros H. inversion H. reflexivity.
Qed.

Lemma split_nonempty sep s : Py.split sep s <> [].
Proof.
  destruct s as [|x s]; cbn [Py.split]; [discriminate|].
  destruct (Ascii.eqb x sep); [discriminate|].
  destruct (Py.split sep s); discriminate.
Qed.

Lemma split_single sep s : Py.split sep s = [""] -> s = "".
Proof.
  destruct s as [|x s]; cbn [Py.split]; [reflexivity|].
  destruct (Ascii.eqb x sep).
  - intros H. inversion H as [H']. now apply split_nonempty in H'.
  - destruct (Py.split sep s); discriminate.
Qed.

(** The last part of a text without white space at its end has none at its
    end either. *)
Lemma split_last_rstrip sep s :
  Py.rstrip s = s ->
  Py.rstrip (last (Py.split sep s) "") = last (Py.split sep s) "".
Proof.
  induction s as [|x s IH]; [reflexivity|].
  intros H. pose proof (rstrip_fixed_tail _ _ H) as Hs. specialize (IH Hs).
  cbn [Py.split]. destruct (Ascii.eqb x sep).
  - pose proof (split_nonempty sep s) as Hne.
    destruct (Py.split sep s) as [|p ps]; [congruence|]. exact IH.
  - pose proof (split_single sep s) as Hsingle.
    pose proof (split_nonempty sep s) as Hne.
    destruct (Py.split sep s) as [|p [|q ps]].
    + congruence.
    + cbn [last] in *. destruct p as [|y p'].
      * rewrite (Hsingle eq_refl) in H. exact H.
      * cbn [Py.rstrip] in *. rewrite IH. reflexivity.
    + exact IH.
Qed.

Lemma load_line_storable us line :
  Py.occurs Py.CR line = false ->
  Py.occurs Py.LF (Py.strip line) = false ->
  forallb storable us = true ->
  forallb storable (load_line us line) = true.
Proof.
  intros Hcr Hlf Hus. rewrite load_line_spec.
  destruct (malformed line) eqn:Hm; [exact Hus|].
  rewrite forallb_app, Hus. cbn [forallb]. rewrite andb_true_r.
  unfold malformed in Hm. apply orb_false_iff in Hm as [Hlen _].
  apply negb_false_iff, Nat.eqb_eq in Hlen.
  unfold storable, plain, user_of_line. cbn [name email].
  unfold line_parts in *.
  assert (Hcr' : Py.occurs Py.CR (Py.strip line) = false).
  { destruct (Py.occurs Py.CR (Py.strip line)) eqn:E; [|reflexivity].
    apply occurs_strip in E. congruence. }
  pose proof (split_last_rstrip "," (Py.strip line)
                (rstrip_idem (Py.lstrip line))) as Hlast.
  assert (Hfree : forall c p,
             In p (Py.split "," (Py.strip line)) ->
             Py.occurs c (Py.strip line) = false -> Py.occurs c p = false).
  { intros c p Hp Hc. destruct (Py.occurs c p) eqn:E; [|reflexivity].
    apply (split_parts_occurs _ _ _ _ Hp) in E. congruence. }
  pose proof (split_parts_free "," (Py.strip line)) as Hsep.
  destruct (Py.split "," (Py.strip line)) as [|p0 [|p1 [|p2 [|? ?]]]];
    try discriminate Hlen.
  cbn [nth last] in *.
  rewrite (Hsep p1), (Hsep p2), (Hfree Py.LF p1), (Hfree Py.LF p2),
    (Hfree Py.CR p1), (Hfree Py.CR p2), Hlast by (cbn; tauto || assumption).
  now rewrite String.eqb_refl.
Qed.

Lemma fold_load_line_storable lines : forall us,
  (forall l, In l lines ->
     Py.occurs Py.CR l = false /\ Py.occurs Py.LF (Py.strip l) = false) ->
  forallb storable us = true ->
  forallb storable (fold_left load_line lines us) = true.
Proof.
  induction lines as [|l lines IH]; intros us Hl Hus; [exact Hus|].
  cbn [fold_left]. apply IH.
  - intros l' Hl'. apply Hl. now right.
  - destruct (Hl l (or_introl eq_refl)). now apply load_line_storable.
Qed.

(** X8.  Whatever the file holds, the users the loader makes of it are
    users that a save keeps: no comma and no line break in the name and
    the email, no white space at the end of the email.  So saving them and
    loading again gives the same list: after one load the file format is
    stable. *)
Theorem loaded_users_are_storable st :
  forallb storable (users (load_users_from_file st)) = true
  /\ users (load_users_from_file
              (save_users_to_file (load_users_from_file st)))
     = users (load_users_from_file st).
Proof.
  assert (H : forallb storable (users (load_users_from_file st)) = true).
  { unfold load_users_from_file. destruct (file st) as [text|]; [|reflexivity].
    cbn [users]. apply fold_load_line_storable; [|reflexivity].
    intros l Hl. split.
    - destruct (Py.occurs Py.CR l) eqn:E; [|reflexivity].
      apply (iter_lines_occurs _ _ _ Hl) in E.
      now rewrite universal_newlines_no_CR in E.
    - destruct (iter_lines_shape _ _ Hl) as (body & Hb & [->| ->]).
      + destruct (Py.occurs Py.LF (Py.strip body)) eqn:E; [|reflexivity].
        apply occurs_strip in E. congruence.
      + now apply strip_line_no_LF. }
  split; [exact H|].
  unfold load_users_from_file at 1, save_users_to_file. cbn [file users].
  now rewrite file_text_lines, fold_load_line_User_str.
Qed.

(** *** A run from the start *)

Lemma add_keeps_dense name email st :
  dense_ids (users st) ->
  dense_ids (users (fst (handle_add_user name email st))).
Proof.
  unfold dense_ids, handle_add_user. intros Hd.
  destruct name as [name'|], email as [email'|]; try exact Hd.
  destruct (negb (Py.truthy (Some name')) || negb (Py.truthy (Some email')));
    [exact Hd|].
  cbn [fst save_users_to_file users].
  rewrite map_app, length_app, Nat.add_comm. cbn [List.length Nat.add map id].
  now rewrite seq_ids_snoc, Hd.
Qed.

Lemma add_keeps_in_step name email st :
  in_step st -> in_step (fst (handle_add_user name email st)).
Proof.
  unfold handle_add_user. intros H.
  destruct name as [name'|], email as [email'|]; try exact H.
  destruct (negb (Py.truthy (Some name')) || negb (Py.truthy (Some email')));
    [exact H|].
  left. reflexivity.
Qed.

Lemma adds_keep requests : forall st,
  dense_ids (users st) -> in_step st ->
  dense_ids (users (adds requests st)) /\ in_step (adds requests st).
Proof.
  unfold adds.
  induction requests as [|r requests IH]; intros st Hd Hs; [now split|].
  cbn [fold_left]. apply IH; [now apply add_keeps_dense|].
  now apply add_keeps_in_step.
Qed.

(** X16.  A run that starts without a file: after any sequence of adds,
    accepted or refused, the stored ids are 1..N in order; and when the
    names and emails stored hold no comma, no line break and no white
    space at the end of the email, a restart finds the service exactly as
    it was, list and file, so that the ids go on from N+1. *)
Theorem run_without_file_survives_restart requests :
  dense_ids (users (adds requests started_without_file))
  /\ (forallb storable (users (adds requests started_without_file)) = true ->
      load_users_from_file (adds requests started_without_file)
      = adds requests started_without_file).
Proof.
  destruct (adds_keep requests started_without_file) as [Hd Hs].
  { reflexivity. }
  { right. split; reflexivity. }
  split; [exact Hd|].
  intros Hst. destruct (adds requests started_without_file) as [us f].
  unfold in_step in Hs. cbn [file users] in *.
  unfold load_users_from_file. cbn [file].
  destruct Hs as [->|[-> ->]]; [|reflexivity].
  now rewrite file_text_lines, fold_load_line_User_str.
Qed.

End FlatFileMore.

(** ** More on the database-backed variant *)

Section UseratorMore.

Import Userator.

Variable validate_email : string -> option string.

(** *** The path operations on a connection without waiting changes *)







(** *** A create and the lookups after it *)

Lemma filter_id_with_user u file i :
  filter (fun r => (row_id r =? i)%Z) (users (with_user u file))
  = if (new_rowid file =? i)%Z then
      [ {| row_id := new_rowid file; row_name := name u;
           row_email := email u; row_age := age u |} ]
    else filter (fun r => (row_id r =? i)%Z) (users file).
Proof.
  unfold with_user. cbn [users]. rewrite filter_app. cbn [filter row_id].
  destruct (Z.eqb_spec (new_rowid file) i) as [E|E].
  - replace (filter _ (users file)) with (@nil Row); [reflexivity|].
    symmetry. apply filter_id_absent. intros row Hrow.
    pose proof (new_rowid_gt file row Hrow). lia.
  - now rewrite app_nil_r.
Qed.

(** X11.  A user that was created can be read back: after a create
    answered 201 with a user, [GET /users/{id}] with the id of that user
    answers 200 with exactly the user of the 201, and so does
    [GET /users/] with that [user_id], in a list of one, for every [skip]
    and [limit] within range, whatever the file held before. *)
Theorem created_user_is_read_back file body u :
  fst (handle validate_email (POST_users body) file)
  = {| status := 201; body := JSON_user u |} ->
  fst (handle validate_email (GET_users_id (Int (id u)))
         (file_after validate_email (POST_users body) file))
  = {| status := 200; body := JSON_user u |}
  /\ (forall skip limit,
        in_range 0 None skip = true -> in_range 1 (Some 100) limit = true ->
        fst (handle validate_email (GET_users (Int (id u)) skip limit)
               (file_after validate_email (POST_users body) file))
        = {| status := 200; body := JSON_users [u] |}).
Proof.
  intros H201.
  assert (Hget : fst (handle validate_email (GET_users_id (Int (id u)))
                        (file_after validate_email (POST_users body) file))
                 = {| status := 200; body := JSON_user u |}).
  { revert H201. unfold file_after. rewrite handle_POST_users.
    destruct (UserCreate_of_json validate_email body) as [errors|u0];
      [discriminate|].
    cbv zeta. destruct (email_taken (email u0) file); [discriminate|].
    cbn [fst snd committed closed_on].
    destruct (UserResponse_validate validate_email _ _ _ _) as [|r] eqn:E;
      [discriminate|].
    intros H. inversion H; subst r. clear H.
    rewrite handle_GET_users_id, filter_id_with_user.
    rewrite (UserResponse_validate_id _ _ _ _ _ _ E), Z.eqb_refl.
    unfold to_response. cbn [fst row_name row_email row_age row_id].
    now rewrite E. }
  split; [exact Hget|].
  intros skip limit Hs Hl.
  rewrite handle_GET_users_with_id by assumption.
  cbn [fst]. now rewrite Hget.
Qed.

(** X12.  A create, whatever its outcome, changes the answer of no lookup
    by id other than the id the table gives next: every user stored before
    is found as before, and ids that were absent stay absent. *)
Theorem create_keeps_other_lookups file body i :
  i <> new_rowid file ->
  fst (handle validate_email (GET_users_id (Int i))
         (file_after validate_email (POST_users body) file))
  = fst (handle validate_email (GET_users_id (Int i)) file).
Proof.
  intros Hi. unfold file_after. rewrite handle_POST_users.
  destruct (UserCreate_of_json validate_email body) as [errors|u];
    [reflexivity|].
  cbv zeta. destruct (email_taken (email u) file); [reflexivity|].
  cbn [snd committed closed_on].
  rewrite !handle_GET_users_id, filter_id_with_user.
  destruct (Z.eqb_spec (new_rowid file) i); [congruence|reflexivity].
Qed.

(** *** The table keeps its emails apart *)

Lemma email_taken_In e file :
  email_taken e file = false -> ~ In e (map row_email (users file)).
Proof.
  unfold email_taken. intros H Hin.
  apply in_map_iff in Hin as (row & <- & Hrow).
  apply not_true_iff_false in H. apply H.
  apply existsb_exists. exists row. split; [assumption|apply String.eqb_refl].
Qed.

(** X13.  No request makes two rows share an email: when the emails of the
    table are pairwise different before a request, they are after it,
    whatever the request and whatever the validator accepts. *)
Theorem requests_keep_emails_distinct r file :
  NoDup (map row_email (users file)) ->
  NoDup (map row_email (users (file_after validate_email r file))).
Proof.
  intros Hnd. destruct r as [body|user_id skip limit|user_id_path].
  - unfold file_after. rewrite handle_POST_users.
    destruct (UserCreate_of_json validate_email body) as [errors|u];
      [exact Hnd|].
    cbv zeta. destruct (email_taken (email u) file) eqn:E; [exact Hnd|].
    cbn [snd committed closed_on]. unfold with_user. cbn [users].
    rewrite map_app. cbn [map row_email].
    eapply Permutation_NoDup; [apply Permutation_cons_append|].
    constructor; [now apply email_taken_In|assumption].
  - now rewrite (proj1 (GET_keeps_file validate_email file)).
  - now rewrite (proj2 (GET_keeps_file validate_email file)).
Qed.

(** *** Pages put together *)






(** *** What validation lets through *)


Lemma UserCreate_of_json_fields body u :
  UserCreate_of_json validate_email body = inr u ->
  json_name body = Value (name u)
  /\ (exists s, json_email body = Value s
                /\ validate_email s = Some (email u))
  /\ match json_age body with
     | Missing => age u = Some 0
     | Null => age u = None
     | Value a => age u = Some a /\ 0 <= a
     | WrongType => False
     end.
Proof.
  unfold UserCreate_of_json, UserBase_validate, validate_name,
    validate_email_field, validate_age.
  destruct body as [n e a]. cbn [json_name json_email json_age].
  destruct n as [| | |n]; destruct e as [| | |e];
    try destruct (validate_email e) eqn:Ee;
    destruct a as [| | |a];
    try destruct (Z.leb_spec 0 a);
    cbn; intros Hx; try discriminate Hx;
    inversion Hx; subst; cbn; repeat split; eauto.
Qed.

(** X17.  A create answered 201 echoes its request: the user of the
    response has the name as given, the age as given (0 when left out,
    none when null), and for email what validation makes of the
    normalised email of the request, the text that is stored; the row
    stored holds that name, that age and the normalised email under the
    id of the response. *)
Theorem created_user_echoes_request file body u :
  fst (handle validate_email (POST_users body) file)
  = {| status := 201; body := JSON_user u |} ->
  json_name body = Value (name (base u))
  /\ match json_age body with
     | Missing => age (base u) = Some 0
     | Null => age (base u) = None
     | Value a => age (base u) = Some a /\ 0 <= a
     | WrongType => False
     end
  /\ exists s stored,
       json_email body = Value s
       /\ validate_email s = Some stored
       /\ validate_email stored = Some (email (base u))
       /\ In {| row_id := id u; row_name := name (base u);
                row_email := stored; row_age := age (base u) |}
            (users (file_after validate_email (POST_users body) file)).
Proof.
  unfold file_after. rewrite handle_POST_users.
  destruct (UserCreate_of_json validate_email body) as [errors|u0] eqn:Eu;
    [discriminate|].
  cbv zeta. destruct (email_taken (email u0) file); [discriminate|].
  cbn [fst snd committed closed_on].
  destruct (UserResponse_validate validate_email _ _ _ _) as [|r] eqn:E;
    [discriminate|].
  intros H. inversion H; subst r. clear H.
  assert (Hu : id u = new_rowid file /\ name (base u) = name u0
               /\ age (base u) = age u0
               /\ validate_email (email u0) = Some (email (base u))).
  { revert E. unfold UserResponse_validate, UserBase_validate, validate_name,
      validate_email_field, validate_age, validate_id, optional.
    destruct (validate_email (email u0)) as [e'|];
      destruct (age u0) as [a|]; try destruct (0 <=? a)%Z;
      cbn; intros H; inversion H; subst; cbn; auto. }
  destruct Hu as (Hid & Hname & Hage & Hemail).
  destruct (UserCreate_of_json_fields body u0 Eu)
    as (Hn & (s & Hs & Hv) & Ha).
  rewrite Hname, Hage. split; [exact Hn|]. split; [exact Ha|].
  exists s, (email u0). repeat split; try assumption.
  unfold with_user. cbn [users]. rewrite in_app_iff. right. left.
  now rewrite Hid.
Qed.

End UseratorMore.

(** ** More runs of the two services *)

Section MoreRuns.

Import Userator.

Lemma save_then_load_reads_back_witness :
  FlatFile.users
    (FlatFile.load_users_from_file
       (FlatFile.save_users_to_file
          {| FlatFile.users :=
               [ {| FlatFile.id := 1; FlatFile.name := "Doe, Jo";
                    FlatFile.email := "jo@x.com" |};
                 {| FlatFile.id := 2; FlatFile.name := " bob";
                    FlatFile.email := "bob@x.com  " |} ];
             FlatFile.file := None |}))
  = map FlatFile.read_back
      (filter FlatFile.comma_free
         [ {| FlatFile.id := 1; FlatFile.name := "Doe, Jo";
              FlatFile.email := "jo@x.com" |};
           {| FlatFile.id := 2; FlatFile.name := " bob";
              FlatFile.email := "bob@x.com  " |} ]).
Proof.
  apply (save_then_load_reads_back
           {| FlatFile.users :=
                [ {| FlatFile.id := 1; FlatFile.name := "Doe, Jo";
                     FlatFile.email := "jo@x.com" |};
                  {| FlatFile.id := 2; FlatFile.name := " bob";
                     FlatFile.email := "bob@x.com  " |} ];
              FlatFile.file := None |}).
  reflexivity.
Defined.

(** [_add_sample_users] on the connection of the fixture leaves the table
    that [sample_file] is, and hands back the two users with ids 1 and 2. *)
Example add_sample_users_run :
  _add_sample_users test_db_conn
  = (Returned [ ({| name := "Alice"; email := "alice@example.com";
                    age := Some 28 |}, Some 1);
                ({| name := "Bob"; email := "bob@example.com";
                    age := Some 32 |}, Some 2) ],
     clean_on sample_file
       [ INSERT_INTO_users "Alice" "alice@example.com" (Some 28);
         INSERT_INTO_users "Bob" "bob@example.com" (Some 32) ]).
Proof. reflexivity. Qed.


Lemma created_user_is_read_back_witness :
  fst (handle simple_email (GET_users_id (Int 3))
         (file_after simple_email (POST_users first_user) sample_file))
  = {| status := 200;
       body := JSON_user
                 {| base := {| name := "First User";
                               email := "duplicate@example.com";
                               age := Some 25 |};
                    id := 3 |} |}
  /\ (forall skip limit,
        in_range 0 None skip = true -> in_range 1 (Some 100) limit = true ->
        fst (handle simple_email (GET_users (Int 3) skip limit)
               (file_after simple_email (POST_users first_user) sample_file))
        = {| status := 200;
             body := JSON_users
                       [ {| base := {| name := "First User";
                                       email := "duplicate@example.com";
                                       age := Some 25 |};
                            id := 3 |} ] |}).
Proof.
  apply (created_user_is_read_back simple_email sample_file first_user
           {| base := {| name := "First User";
                         email := "duplicate@example.com"; age := Some 25 |};
              id := 3 |}).
  reflexivity.
Defined.

Lemma create_keeps_other_lookups_witness :
  fst (handle simple_email (GET_users_id (Int 2))
         (file_after simple_email (POST_users first_user) sample_file))
  = fst (handle simple_email (GET_users_id (Int 2)) sample_file).
Proof.
  apply (create_keeps_other_lookups simple_email sample_file first_user 2).
  vm_compute. discriminate.
Defined.

Lemma requests_keep_emails_distinct_witness :
  NoDup (map row_email
           (users (file_after simple_email (POST_users first_user)
                     sample_file))).
Proof.
  apply (requests_keep_emails_distinct simple_email (POST_users first_user)
           sample_file).
  repeat constructor; simpl; intuition discriminate.
Defined.


(** The first requests of a test, through the client on the connection of
    the fixture: the second create meets the row the first one left. *)
Example client_test_add_user_duplicate_email :
  let '(r1, db1) := client simple_email (POST_users first_user)
                      test_db_conn in
  let '(r2, db2) := client simple_email (POST_users second_user) db1 in
  status r1 = 201 /\ status r2 = 409
  /\ detail_has "already exists" r2 = true /\ is_open db2 = true.
Proof. repeat split. Qed.

Lemma run_without_file_survives_restart_witness :
  FlatFile.load_users_from_file
    (FlatFile.adds [ (Some "ann", Some "ann@x.com"); (None, Some "x");
                     (Some "bob b", Some "bob@x.com") ]
       FlatFile.started_without_file)
  = FlatFile.adds [ (Some "ann", Some "ann@x.com"); (None, Some "x");
                    (Some "bob b", Some "bob@x.com") ]
      FlatFile.started_without_file.
Proof.
  apply (proj2 (run_without_file_survives_restart
                  [ (Some "ann", Some "ann@x.com"); (None, Some "x");
                    (Some "bob b", Some "bob@x.com") ])).
  reflexivity.
Defined.

Lemma created_user_echoes_request_witness :
  json_name first_user = Value "First User"
  /\ match json_age first_user with
     | Missing => Some 25 = Some 0
     | Null => Some 25 = None
     | Value a => Some 25 = Some a /\ 0 <= a
     | WrongType => False
     end
  /\ exists s stored,
       json_email first_user = Value s
       /\ simple_email s = Some stored
       /\ simple_email stored = Some "duplicate@example.com"
       /\ In {| row_id := 3; row_name := "First User";
                row_email := stored; row_age := Some 25 |}
            (users (file_after simple_email (POST_users first_user)
                      sample_file)).
Proof.
  apply (created_user_echoes_request simple_email sample_file first_user
           {| base := {| name := "First User";
                         email := "duplicate@example.com"; age := Some 25 |};
              id := 3 |}).
  reflexivity.
Defined.

End MoreRuns.
